(** * Experiment tracker: index construction, queries, retention cleanup, CLI

    A shallow embedding of [hydra-proj/src/experiment_tracker.py].

    - JSON values and Python dictionaries (insertion ordered) are association
      lists; JSON numbers are rationals: the exact value of the parsed
      integer or double.  The statements about orderings and equality take
      numbers of magnitude at most 2^53, which [int64] and [float64] both
      hold exactly.
    - The output directory is a tree of named nodes; a directory lists its
      entries in the order [iterdir] yields them.  A file is represented by
      what the two loaders the program uses return on it ([json.load] and
      [pd.read_csv]).  The model covers regular files and directories, and
      documents that are JSON objects (or fail to load).
    - Effects (the directory tree and standard output) are threaded by a
      state-and-exception monad [M].
    - pandas operations are modelled by their documented contract; the two
      library functions that are left abstract ([DataFrame.to_csv] and the
      part of Python's [re] outside a small fragment) are parameters. *)

From Stdlib Require Import List String Ascii ZArith QArith Bool Lia.
From Stdlib Require Import Sorting.Sorted Sorting.Permutation.
From Stdlib Require Import Numbers.DecimalString.
From Stdlib Require Import Structures.OrdersEx Classes.RelationClasses.
Import ListNotations.

Local Open Scope string_scope.
Local Open Scope list_scope.
Set Warnings "-register-all".

(** ** Python values *)

Inductive json : Type :=
| JNull
| JBool (b : bool)
| JNum (q : Q)
| JNaN
| JStr (s : string)
| JArr (items : list json)
| JObj (members : list (string * json)).

(** A Python [dict] with string keys, in insertion order. *)
Definition dict : Type := list (string * json).

Fixpoint get (k : string) (d : dict) : option json :=
  match d with
  | [] => None
  | (k', v) :: d' => if String.eqb k k' then Some v else get k d'
  end.

(** [d[k] = v]: an existing key keeps its position, a new key goes last. *)
Fixpoint setitem (k : string) (v : json) (d : dict) : dict :=
  match d with
  | [] => [(k, v)]
  | (k', v') :: d' =>
      if String.eqb k k' then (k', v) :: d' else (k', v') :: setitem k v d'
  end.

(** [d.update(other)] *)
Definition update (d other : dict) : dict :=
  fold_left (fun acc kv => setitem (fst kv) (snd kv) acc) other d.

Definition keys (d : dict) : list string := map fst d.

Definition mem (k : string) (l : list string) : bool := existsb (String.eqb k) l.

(** ** Exceptions *)

Inductive exn : Type :=
| FileNotFoundError
| IsADirectoryError
| JSONDecodeError
| ParserError
| AttributeError (name : string)
| KeyError (key : string)
| IndexError
| TypeError
| ValueError
| ReError
| SystemExit (code : Z).

Inductive result (A : Type) : Type :=
| Ok (a : A)
| Raise (e : exn).
Arguments Ok {A} a.
Arguments Raise {A} e.

Definition rbind {A B} (r : result A) (k : A -> result B) : result B :=
  match r with
  | Ok a => k a
  | Raise e => Raise e
  end.

Declare Scope result_scope.
Delimit Scope result_scope with res.
Notation "x <- r ;; k" := (rbind r (fun x => k))
  (at level 61, r at next level, right associativity) : result_scope.

(** Runs [f] over [l] from left to right and concatenates what it returns;
    the first exception ends the traversal. *)
Fixpoint collect {A B} (f : A -> result (list B)) (l : list A) : result (list B) :=
  match l with
  | [] => Ok []
  | a :: l' =>
      (bs <- f a ;; rest <- collect f l' ;; Ok (bs ++ rest))%res
  end.

(** ** Stable sorting (Python's [sorted], pandas with [keep='first']) *)

Section Sorting.
Context {A : Type} (le : A -> A -> bool).

Fixpoint insert (x : A) (l : list A) : list A :=
  match l with
  | [] => [x]
  | y :: l' => if le x y then x :: l else y :: insert x l'
  end.

Definition sorted (l : list A) : list A := fold_right insert [] l.
End Sorting.

(** ** Tables *)

Record DataFrame : Type := { columns : list string; rows : list dict }.

(** A cell that a record does not define is missing (NaN). *)
Definition cell (r : dict) (c : string) : json :=
  match get c r with
  | Some v => v
  | None => JNaN
  end.

Definition add_keys (cols : list string) (r : dict) : list string :=
  fold_left (fun cs k => if mem k cs then cs else cs ++ [k]) (keys r) cols.

(** [pd.DataFrame(records)]: the columns are the keys of the records in
    order of first appearance. *)
Definition pd_DataFrame (records : list dict) : DataFrame :=
  {| columns := fold_left add_keys records []; rows := records |}.

(** [df.empty] *)
Definition empty (df : DataFrame) : bool :=
  match columns df, rows df with
  | [], _ => true
  | _, [] => true
  | _, _ => false
  end.

(** [c in df.columns] *)
Definition has_column (df : DataFrame) (c : string) : bool := mem c (columns df).

(** [df[cols]] for a list of labels: [KeyError] when one of them is unknown;
    the exception carries the first unknown label here (the message of
    pandas lists all of them). *)
Definition select (cols : list string) (df : DataFrame) : result DataFrame :=
  match filter (fun c => negb (has_column df c)) cols with
  | [] => Ok {| columns := cols; rows := rows df |}
  | c :: _ => Raise (KeyError c)
  end.

(** [[col for col in display_cols if col in df.columns]] *)
Definition available (display_cols : list string) (df : DataFrame) : list string :=
  filter (has_column df) display_cols.

(** The cells that [to_string(index=False)] lays out. *)
Definition body (df : DataFrame) : list (list json) :=
  map (fun r => map (cell r) (columns df)) (rows df).

(** [df[mask]] *)
Definition where_ (keep : dict -> bool) (df : DataFrame) : DataFrame :=
  {| columns := columns df; rows := filter keep (rows df) |}.

(** The number in a cell, when it holds one; a bool counts as 0 or 1, as it
    does when a bool column is ranked. *)
Definition number (c : string) (r : dict) : option Q :=
  match cell r c with
  | JNum q => Some q
  | JBool true => Some 1%Q
  | JBool false => Some 0%Q
  | _ => None
  end.

Definition has_number (c : string) (r : dict) : bool :=
  match number c r with Some _ => true | None => false end.

(** dtype inference: a column is numeric when every cell is a number, a float
    NaN, [None] or absent, and at least one record gives it a number or a
    float NaN, or when every record gives it a bool; any other column has
    dtype [object].  The numbers are compared by their exact value, which is
    what pandas does on [int64] and [float64] as long as both hold them
    exactly, that is up to the magnitude 2^53 ([exact_column] below): beyond
    it the dtype and the rounding depend on whether a number was written as
    an integer, which [JNum] does not record, and the statements about
    rankings leave such columns out. *)
Definition numeric_cell (v : json) : bool :=
  match v with
  | JNum _ | JNaN | JNull => true
  | _ => false
  end.

Definition float_cell (v : json) : bool :=
  match v with
  | JNum _ | JNaN => true
  | _ => false
  end.

Definition bool_cell (v : json) : bool :=
  match v with
  | JBool _ => true
  | _ => false
  end.

Definition numeric_column (df : DataFrame) (c : string) : bool :=
  (forallb (fun r => numeric_cell (cell r c)) (rows df)
   && existsb (fun r => match get c r with Some v => float_cell v | None => false end)
              (rows df))
  || (forallb (fun r => bool_cell (cell r c)) (rows df)
      && negb (Nat.eqb (List.length (rows df)) 0)).

(** The magnitude up to which [int64], [float64] and the exact value of a
    number agree. *)
Definition two53 : Q := 9007199254740992.

Definition exact_cell (v : json) : bool :=
  match v with
  | JNum q => Qle_bool (- two53) q && Qle_bool q two53
  | _ => true
  end.

Definition exact_column (df : DataFrame) (c : string) : bool :=
  forallb (fun r => exact_cell (cell r c)) (rows df).

(** [x >= y] on the numbers of column [c]; a row without a number is below
    every row. *)
Definition ge_by (c : string) (r1 r2 : dict) : bool :=
  match number c r1, number c r2 with
  | Some x, Some y => Qle_bool y x
  | Some _, None => true
  | None, Some _ => false
  | None, None => true
  end.

(** Descending order on column [c], rows without a number last, ties and the
    rows without a number in their original order. *)
Definition descending (c : string) (rs : list dict) : list dict :=
  sorted (ge_by c) (filter (has_number c) rs)
  ++ filter (fun r => negb (has_number c r)) rs.

(** [df.nlargest(n, c)] with the default [keep='first']. *)
Definition nlargest (n : Z) (c : string) (df : DataFrame) : result DataFrame :=
  if negb (has_column df c) then Raise (KeyError c)
  else if negb (numeric_column df c) then Raise TypeError
  else Ok {| columns := columns df;
             rows := if (n <=? 0)%Z then []
                     else firstn (Z.to_nat n) (descending c (rows df)) |}.

(** [df.sort_values(c, ascending=False)]: numbers (a bool is 0 or 1) or
    strings in descending order, missing cells last; a column that mixes
    numbers and strings cannot be ordered. *)
Definition text (c : string) (r : dict) : option string :=
  match cell r c with
  | JStr s => Some s
  | _ => None
  end.

Definition has_text (c : string) (r : dict) : bool :=
  match text c r with Some _ => true | None => false end.

Definition ge_text (c : string) (r1 r2 : dict) : bool :=
  match text c r1, text c r2 with
  | Some x, Some y => String.leb y x
  | Some _, None => true
  | None, Some _ => false
  | None, None => true
  end.

Definition missing_cell (v : json) : bool :=
  match v with
  | JNaN | JNull => true
  | _ => false
  end.

Definition sort_values_desc (c : string) (df : DataFrame) : result DataFrame :=
  if negb (has_column df c) then Raise (KeyError c)
  else if forallb (fun r => numeric_cell (cell r c) || bool_cell (cell r c)) (rows df) then
    Ok {| columns := columns df; rows := descending c (rows df) |}
  else if forallb (fun r => has_text c r || missing_cell (cell r c)) (rows df) then
    Ok {| columns := columns df;
          rows := sorted (ge_text c) (filter (has_text c) (rows df))
                  ++ filter (fun r => negb (has_text c r)) (rows df) |}
  else Raise TypeError.

(** Python's [==] between two scalars, as an element-wise comparison of a
    column with a scalar uses it: numbers by value (a bool is 0 or 1),
    strings by content, everything else unequal, NaN unequal to everything.
    It is the comparison of scalars only: a list or a dict as the value to
    compare with is not a scalar for pandas (a list is compared element by
    element along the column), and the statements about filters take scalar
    values ([scalar_value] below), with numbers up to 2^53. *)
Definition as_number (v : json) : option Q :=
  match v with
  | JNum q => Some q
  | JBool true => Some 1%Q
  | JBool false => Some 0%Q
  | _ => None
  end.

Definition scalar_value (v : json) : bool :=
  match v with
  | JArr _ | JObj _ => false
  | _ => true
  end.

Definition py_eqb (v1 v2 : json) : bool :=
  match as_number v1, as_number v2 with
  | Some x, Some y => Qeq_bool x y
  | _, _ =>
      match v1, v2 with
      | JStr s1, JStr s2 => String.eqb s1 s2
      | _, _ => false
      end
  end.

(** Python's [v > y] for a float [y]: a number by value (a bool is 0 or 1),
    NaN never, and a [TypeError] for a value that is not a number. *)
Definition Qlt_bool (x y : Q) : bool := negb (Qle_bool y x).

Definition py_gt (v : json) (y : Q) : result bool :=
  match v with
  | JNaN => Ok false
  | _ =>
      match as_number v with
      | Some x => Ok (Qlt_bool y x)
      | None => Raise TypeError
      end
  end.

(** [series.dropna().unique()]: the distinct values that are not missing,
    in order of first appearance. *)
Definition unique (vs : list json) : list json :=
  fold_left (fun seen v => if existsb (py_eqb v) seen then seen else seen ++ [v])
            (filter (fun v => negb (missing_cell v)) vs) [].

(** ** The output directory *)

(** A file, as the program can observe it: through [json.load] (documents)
    and through [pd.read_csv] (the persisted index). *)
Record file : Type := { json_load : result dict; read_csv : result DataFrame }.

Inductive node : Type :=
| File (f : file)
| Dir (mtime : Q) (entries : list (string * node)).

(** The entries of a directory, in the order [iterdir] yields them. *)
Definition directory : Type := list (string * node).

Fixpoint lookup (name : string) (d : directory) : option node :=
  match d with
  | [] => None
  | (n, x) :: d' => if String.eqb name n then Some x else lookup name d'
  end.

(** [(d / name).exists()] *)
Definition exists_ (name : string) (d : directory) : bool :=
  match lookup name d with Some _ => true | None => false end.

(** [shutil.rmtree(d / name)] *)
Definition remove (name : string) (d : directory) : directory :=
  filter (fun e => negb (String.eqb name (fst e))) d.

Fixpoint replace (name : string) (x : node) (d : directory) : directory :=
  match d with
  | [] => [(name, x)]
  | (n, y) :: d' =>
      if String.eqb name n then (n, x) :: d' else (n, y) :: replace name x d'
  end.

(** Opening [d / name] for writing and storing [f] there. *)
Definition write (name : string) (f : file) (d : directory) : result directory :=
  match lookup name d with
  | Some (Dir _ _) => Raise IsADirectoryError
  | _ => Ok (replace name (File f) d)
  end.

(** [with open(d / name) as f: json.load(f)] *)
Definition open_json (d : directory) (name : string) : result dict :=
  match lookup name d with
  | None => Raise FileNotFoundError
  | Some (Dir _ _) => Raise IsADirectoryError
  | Some (File f) => json_load f
  end.

(** [pd.read_csv(d / name)] *)
Definition pd_read_csv (d : directory) (name : string) : result DataFrame :=
  match lookup name d with
  | None => Raise FileNotFoundError
  | Some (Dir _ _) => Raise IsADirectoryError
  | Some (File f) => read_csv f
  end.

(** A file that holds the JSON object [doc]. *)
Definition document (doc : dict) : file :=
  {| json_load := Ok doc; read_csv := Raise ParserError |}.

(** ** Standard output *)

(** A printed line keeps the values an f-string interpolates: [Val v] for
    [{v}] and [Fixed n v] for [{v:.nf}]; strings and integers are rendered. *)
Inductive piece : Type :=
| Lit (s : string)
| Val (v : json)
| Fixed (digits : nat) (v : json).

Inductive printed : Type :=
| Print (line : list piece)
| PrintTable (header : list string) (cells : list (list json)).

Definition nl : string := String (ascii_of_nat 10) "".

Definition str_nat (n : nat) : string := NilZero.string_of_uint (Nat.to_uint n).
Definition str_int (z : Z) : string := NilZero.string_of_int (Z.to_int z).

(** ** The effects of the program *)

Record world : Type :=
  { files : directory;        (* the contents of the base directory *)
    stdout : list printed;    (* what has been printed, oldest first *)
    clock : Q }.              (* [datetime.now().timestamp()] *)

Definition M (A : Type) : Type := world -> result A * world.

Definition ret {A} (a : A) : M A := fun w => (Ok a, w).

Definition raise {A} (e : exn) : M A := fun w => (Raise e, w).

Definition bind {A B} (m : M A) (k : A -> M B) : M B :=
  fun w => match m w with
           | (Ok a, w') => k a w'
           | (Raise e, w') => (Raise e, w')
           end.

Definition lift {A} (r : result A) : M A := fun w => (r, w).

Declare Scope monad_scope.
Delimit Scope monad_scope with M.
Notation "x <- m ;; k" := (bind m (fun x => k))
  (at level 61, m at next level, right associativity) : monad_scope.
Notation "m ;; k" := (bind m (fun _ => k))
  (at level 61, right associativity) : monad_scope.

Definition print (line : list piece) : M unit :=
  fun w => (Ok tt, {| files := files w; stdout := stdout w ++ [Print line]; clock := clock w |}).

(** [print(df.to_string(index=False))] *)
Definition print_table (df : DataFrame) : M unit :=
  fun w => (Ok tt, {| files := files w;
                      stdout := stdout w ++ [PrintTable (columns df) (body df)];
                      clock := clock w |}).

Definition listdir : M directory := fun w => (Ok (files w), w).

Definition now : M Q := fun w => (Ok (clock w), w).

Definition rmtree (name : string) : M unit :=
  fun w => (Ok tt, {| files := remove name (files w); stdout := stdout w; clock := clock w |}).

Definition store (name : string) (f : file) : M unit :=
  fun w => match write name f (files w) with
           | Ok d => (Ok tt, {| files := d; stdout := stdout w; clock := clock w |})
           | Raise e => (Raise e, w)
           end.

(** ** Regular expressions

    [Series.str.contains(pat, case=False)] hands [pat] to Python's [re] with
    [re.IGNORECASE].  The model interprets the patterns made of ordinary
    characters and [.] on ASCII text; for every other pattern or text the
    search is the parameter [re_search] of the section below. *)

Inductive atom : Type :=
| Char (c : ascii)
| AnyChar.

(** The characters with a meaning of their own in a pattern, [.] apart. *)
Definition special (c : ascii) : bool :=
  existsb (Ascii.eqb c) (list_ascii_of_string "\^$*+?{}[]|()").

Fixpoint parse (pat : string) : option (list atom) :=
  match pat with
  | "" => Some []
  | String c pat' =>
      if special c then None
      else option_map (cons (if Ascii.eqb c "." then AnyChar else Char c)) (parse pat')
  end.

Definition lower (c : ascii) : ascii :=
  if Ascii.leb "A" c && Ascii.leb c "Z"
  then ascii_of_nat (nat_of_ascii c + 32)
  else c.

Definition newline : ascii := ascii_of_nat 10.

Definition atom_matches (a : atom) (c : ascii) : bool :=
  match a with
  | Char x => Ascii.eqb (lower x) (lower c)
  | AnyChar => negb (Ascii.eqb c newline)
  end.

Fixpoint match_here (atoms : list atom) (s : string) : bool :=
  match atoms, s with
  | [], _ => true
  | _ :: _, "" => false
  | a :: atoms', String c s' => atom_matches a c && match_here atoms' s'
  end.

Fixpoint search (atoms : list atom) (s : string) : bool :=
  match_here atoms s
  || match s with
     | "" => false
     | String _ s' => search atoms s'
     end.

Definition ascii_only (s : string) : bool :=
  forallb (fun c => Nat.ltb (nat_of_ascii c) 128) (list_ascii_of_string s).

(** ** The experiment organizer *)

(** [self.base_dir] is a [Path]; the record holds its text,
    [str(Path(base_dir))]. *)
Record ExperimentOrganizer : Type := { base_dir : string }.

(** [ExperimentOrganizer()]: [Path("./outputs")], whose text is [outputs]. *)
Definition default_organizer : ExperimentOrganizer := {| base_dir := "outputs" |}.

(** [str(p / name)] for the text [p] of a path, as [str(Path(...))] gives
    it, and the name [name] of an entry: the current directory [.] is left
    out, and no separator is added after a root ([/] or [//]), the only
    texts of paths that end with one. *)
Definition ends_with_separator (p : string) : bool :=
  String.eqb (String.substring (String.length p - 1) 1 p) "/".

Definition joinpath (p name : string) : string :=
  if String.eqb p "." || String.eqb p "" then name
  else if ends_with_separator p then p ++ name
  else p ++ "/" ++ name.

Definition subdirs (d : directory) : list (string * directory) :=
  flat_map (fun e => match snd e with
                     | Dir _ entries => [(fst e, entries)]
                     | File _ => []
                     end) d.

(** [[d for d in exp_dir.iterdir() if d.is_dir() and d.name.startswith('job_')]] *)
Definition job_dirs (entries : directory) : list (string * directory) :=
  filter (fun j => String.prefix "job_" (fst j)) (subdirs entries).

(** The order of two paths with the same parent is the order of their names. *)
Definition by_name (j1 j2 : string * directory) : bool := String.leb (fst j1) (fst j2).

(** [_extract_experiment_info(exp_dir, info_file, results_file)], with
    [name = exp_dir.name], [path = str(exp_dir)] and [entries] the contents
    of [exp_dir], where the two files are looked up. *)
Definition _extract_experiment_info (name path : string) (entries : directory)
  : result dict :=
  (info <- open_json entries "experiment_info.json" ;;
   info <- (if exists_ "results.json" entries
            then (results <- open_json entries "results.json" ;;
                  Ok (update info results))
            else Ok info) ;;
   Ok (setitem "full_path" (JStr path) (setitem "folder_name" (JStr name) info)))%res.

(** The body of the loop over [sorted(job_dirs)]. *)
Definition index_job (parent_name parent_path : string) (job : string * directory)
  : result (list dict) :=
  let (name, entries) := job in
  if exists_ "experiment_info.json" entries then
    (info <- _extract_experiment_info name (joinpath parent_path name) entries ;;
     Ok [setitem "job_number" (JStr name)
           (setitem "sweep_parent" (JStr parent_name) info)])%res
  else Ok [].

(** The body of the loop over [base_dir.iterdir()]: the records one entry of
    the base directory contributes. *)
Definition index_dir (base : string) (e : string * node) : result (list dict) :=
  match e with
  | (_, File _) => Ok []
  | (name, Dir _ entries) =>
      if exists_ "experiment_info.json" entries then
        (info <- _extract_experiment_info name (joinpath base name) entries ;;
         Ok [info])%res
      else
        collect (index_job name (joinpath base name)) (sorted by_name (job_dirs entries))
  end.

(** The list [experiments] when the loop of [create_experiment_index] ends. *)
Definition experiments (base : string) (root : directory) : result (list dict) :=
  collect (index_dir base) root.

(** The fixed preservation threshold: the double that the literal [0.9]
    denotes, 8106479329266893 / 2^53. *)
Definition preservation_threshold : Q := 8106479329266893 # 9007199254740992.

(** Lines 93-100 of [cleanup_old_experiments]: whether the directory with
    contents [entries] is kept as a high-performing experiment. *)
Definition high_performing (entries : directory) : result bool :=
  if exists_ "results.json" entries then
    (results <- open_json entries "results.json" ;;
     py_gt (match get "best_accuracy" results with
            | Some v => v
            | None => JNum 0
            end) preservation_threshold)%res
  else Ok false.

Local Open Scope monad_scope.

(** The loop of [cleanup_old_experiments] over the listing of the base
    directory; only the entry being visited is ever deleted. *)
Fixpoint cleanup_loop (cutoff : Q) (listing : directory) (removed : Z) : M Z :=
  match listing with
  | [] => ret removed
  | (_, File _) :: rest => cleanup_loop cutoff rest removed
  | (name, Dir mtime entries) :: rest =>
      if Qlt_bool mtime cutoff then
        keep <- lift (high_performing entries) ;;
        if keep : bool then
          print [Lit ("Keeping high-performing experiment: " ++ name)] ;;
          cleanup_loop cutoff rest removed
        else
          print [Lit ("Removing old experiment: " ++ name)] ;;
          rmtree name ;;
          cleanup_loop cutoff rest (removed + 1)
      else cleanup_loop cutoff rest removed
  end.

Definition cleanup_old_experiments (self : ExperimentOrganizer) (keep_days : Z) : M unit :=
  t <- now ;;
  let cutoff := (t - inject_Z (keep_days * 24 * 3600))%Q in
  root <- listdir ;;
  removed <- cleanup_loop cutoff root 0 ;;
  print [Lit ("Removed " ++ str_int removed ++ " old experiments")].

(** The index file is looked up in the base directory. *)
Definition read_index : M DataFrame :=
  root <- listdir ;;
  lift (pd_read_csv root "experiment_index.csv").

Definition find_experiments (self : ExperimentOrganizer) (filters : dict) : M DataFrame :=
  df <- read_index ;;
  let df := fold_left (fun df kv =>
                         if has_column df (fst kv)
                         then where_ (fun r => py_eqb (cell r (fst kv)) (snd kv)) df
                         else df) filters df in
  let display_cols :=
    ["folder_name"; "model"; "dataset"; "lr"; "best_accuracy"]
    ++ (if has_column df "sweep_parent" then ["sweep_parent"; "job_number"] else []) in
  lift (select (available display_cols df) df).

(** [{v:.4f}] *)
Definition fixed4 (v : json) : result piece :=
  match v with
  | JNum _ | JNaN | JBool _ => Ok (Fixed 4 v)
  | JStr _ => Raise ValueError
  | _ => Raise TypeError
  end.

(** [row[c]] on a row of [df]. *)
Definition at_ (df : DataFrame) (r : dict) (c : string) : result json :=
  if has_column df c then Ok (cell r c) else Raise (KeyError c).

Definition analyze_sweep (self : ExperimentOrganizer) (sweep_name : string) : M DataFrame :=
  df <- read_index ;;
  if has_column df "sweep_parent" then
    let sweep_results := where_ (fun r => py_eqb (cell r "sweep_parent") (JStr sweep_name)) df in
    if negb (empty sweep_results) then
      print [Lit (nl ++ "Parameter Sweep Analysis: " ++ sweep_name)] ;;
      print [Lit (String.concat "" (repeat "=" 50))] ;;
      sweep_results <- (if has_column sweep_results "best_accuracy"
                        then lift (sort_values_desc "best_accuracy" sweep_results)
                        else ret sweep_results) ;;
      let display_cols := ["job_number"; "lr"; "batch_size"; "best_accuracy"] in
      shown <- lift (select (available display_cols sweep_results) sweep_results) ;;
      print_table shown ;;
      (if has_column sweep_results "best_accuracy" then
         match rows sweep_results with
         | [] => raise IndexError   (* not reached: the frame has a row *)
         | best_run :: _ =>
             print [Lit (nl ++ "Best configuration:")] ;;
             job <- lift (at_ sweep_results best_run "job_number") ;;
             print [Lit "  Job: "; Val job] ;;
             acc <- lift (x <- at_ sweep_results best_run "best_accuracy" ;; fixed4 x)%res ;;
             print [Lit "  Accuracy: "; acc] ;;
             path <- lift (at_ sweep_results best_run "full_path") ;;
             print [Lit "  Path: "; Val path]
         end
       else ret tt) ;;
      ret sweep_results
    else
      print [Lit ("No sweep results found for: " ++ sweep_name)] ;;
      ret (pd_DataFrame [])
  else
    print [Lit "No parameter sweep data found in experiment index"] ;;
    ret (pd_DataFrame []).

(** [list_sweeps] returns in both branches of its test: the statements that
    follow it in the class body (the ones that would create the shortcuts)
    are never reached, and the class defines no [create_shortcuts]. *)
Fixpoint print_sweeps (df : DataFrame) (sweeps : list json) : M unit :=
  match sweeps with
  | [] => ret tt
  | sweep :: sweeps' =>
      let sweep_count :=
        List.length (rows (where_ (fun r => py_eqb (cell r "sweep_parent") sweep) df)) in
      print [Lit "  "; Val sweep; Lit (" (" ++ str_nat sweep_count ++ " jobs)")] ;;
      print_sweeps df sweeps'
  end.

Definition list_sweeps (self : ExperimentOrganizer) : M (list json) :=
  df <- read_index ;;
  if has_column df "sweep_parent" then
    let sweeps := unique (map (fun r => cell r "sweep_parent") (rows df)) in
    print [Lit ("Found " ++ str_nat (List.length sweeps) ++ " parameter sweeps:")] ;;
    print_sweeps df sweeps ;;
    ret sweeps
  else
    print [Lit "No parameter sweep data found"] ;;
    ret [].

(** [organizer.create_shortcuts()]: the attribute lookup fails. *)
Definition create_shortcuts (self : ExperimentOrganizer) : M unit :=
  raise (AttributeError "create_shortcuts").

Section Library.

(** The file [df.to_csv(path, index=False)] writes. *)
Variable to_csv : DataFrame -> file.

(** [re.compile(pat, re.IGNORECASE).search(s)] outside the modelled
    fragment. *)
Variable re_search : string -> string -> result bool.

Definition create_experiment_index (self : ExperimentOrganizer) : M DataFrame :=
  root <- listdir ;;
  found <- lift (experiments (base_dir self) root) ;;
  let df := pd_DataFrame found in
  store "experiment_index.csv" (to_csv df) ;;
  print [Lit ("Created experiment index with " ++ str_nat (List.length found) ++ " experiments")] ;;
  ret df.

Definition list_experiments : M unit :=
  let organizer := default_organizer in
  df <- create_experiment_index organizer ;;
  if negb (empty df) then
    let display_cols :=
      ["folder_name"; "model"; "dataset"; "lr"; "best_accuracy"; "timestamp"] in
    shown <- lift (select (available display_cols df) df) ;;
    print_table shown
  else print [Lit "No experiments found"].

Definition find_best_experiments (metric : string) (top_n : Z) : M unit :=
  let organizer := default_organizer in
  df <- create_experiment_index organizer ;;
  if has_column df metric then
    top_experiments <- lift (nlargest top_n metric df) ;;
    print [Lit (nl ++ "Top " ++ str_int top_n ++ " experiments by " ++ metric ++ ":")] ;;
    shown <- lift (select ["folder_name"; "model"; "dataset"; metric] top_experiments) ;;
    print_table shown
  else print [Lit ("Metric '" ++ metric ++ "' not found")].

(** One application of the compiled pattern. *)
Definition contains (pat s : string) : result bool :=
  if ascii_only pat && ascii_only s then
    match parse pat with
    | Some atoms => Ok (search atoms s)
    | None => re_search pat s
    end
  else re_search pat s.

(** [df[df[c].str.contains(pat, case=False)]]; a cell that is not a string
    gives a missing entry in the mask, which cannot index. *)
Fixpoint matching (c pat : string) (rs : list dict) : result (list dict) :=
  match rs with
  | [] => Ok []
  | r :: rs' =>
      match cell r c with
      | JStr s =>
          (b <- contains pat s ;;
           rest <- matching c pat rs' ;;
           Ok (if b : bool then r :: rest else rest))%res
      | _ => Raise ValueError
      end
  end.

Definition str_contains (c pat : string) (df : DataFrame) : result DataFrame :=
  if has_column df c then
    (rs <- matching c pat (rows df) ;;
     Ok {| columns := columns df; rows := rs |})%res
  else Raise (KeyError c).

Definition quick_cd (partial_name : string) : M unit :=
  let organizer := default_organizer in
  df <- create_experiment_index organizer ;;
  matches <- lift (str_contains "folder_name" partial_name df) ;;
  match rows matches with
  | [only] =>
      path <- lift (at_ matches only "full_path") ;;
      print [Lit "cd "; Val path]
  | _ :: _ :: _ =>
      print [Lit "Multiple matches found:"] ;;
      shown <- lift (select ["folder_name"; "model"; "dataset"] matches) ;;
      print_table shown
  | [] => print [Lit ("No experiments found matching '" ++ partial_name ++ "'")]
  end.

Definition usage : string :=
  "Usage: python experiment_organizer.py [list|find_best|cd|cleanup|shortcuts|sweeps|analyze_sweep]".

(** The [__main__] block, run with [sys.argv = argv]. *)
Definition main (argv : list string) : M unit :=
  if Nat.ltb (List.length argv) 2 then
    print [Lit usage] ;;
    raise (SystemExit 1)
  else
    let command := nth 1 argv "" in
    let organizer := default_organizer in
    if String.eqb command "list" then list_experiments
    else if String.eqb command "find_best" then find_best_experiments "best_accuracy" 5
    else if String.eqb command "cd" && Nat.ltb 2 (List.length argv) then
      quick_cd (nth 2 argv "")
    else if String.eqb command "cleanup" then cleanup_old_experiments organizer 30
    else if String.eqb command "shortcuts" then create_shortcuts organizer
    else if String.eqb command "sweeps" then (_ <- list_sweeps organizer ;; ret tt)
    else if String.eqb command "analyze_sweep" && Nat.ltb 2 (List.length argv) then
      (_ <- analyze_sweep organizer (nth 2 argv "") ;; ret tt)
    else print [Lit ("Unknown command: " ++ command)].

(** The exit status of the interpreter: 0 when the script runs to its end,
    the argument of [sys.exit], 1 after an uncaught exception. *)
Definition exit_status (r : result unit * world) : Z :=
  match fst r with
  | Ok _ => 0
  | Raise (SystemExit code) => code
  | Raise _ => 1
  end.

End Library.

(** ** Running the model

    Instances of the two library parameters, for evaluating the definitions
    on concrete inputs: a writer whose file reads back as the table that was
    written, and an engine that rejects every pattern handed to it. *)

Definition csv_of (df : DataFrame) : file :=
  {| json_load := Raise JSONDecodeError; read_csv := Ok df |}.

Definition no_re (pat s : string) : result bool := Raise ReError.

Definition commands : list string :=
  ["list"; "find_best"; "cd"; "cleanup"; "shortcuts"; "sweeps"; "analyze_sweep"].

(** What [print] leaves behind. *)
Definition printing (w : world) (out : list printed) : world :=
  {| files := files w; stdout := stdout w ++ out; clock := clock w |}.

(** A base directory that has never been indexed. *)
Definition fresh_root : world := {| files := []; stdout := []; clock := 0 |}.

(** An experiment directory with its two documents. *)
Definition experiment_files (info results : dict) : directory :=
  [("experiment_info.json", File (document info));
   ("results.json", File (document results))].

Definition experiment (mtime : Q) (info results : dict) : node :=
  Dir mtime (experiment_files info results).

(** Two experiments: [run_a] has the better accuracy, [run_b] the larger
    learning rate. *)
Definition two_runs : world :=
  {| files :=
       [("run_a", experiment 0 [("model", JStr "r18"); ("dataset", JStr "c10"); ("lr", JNum 0.25)]
                               [("best_accuracy", JNum 0.75)]);
        ("run_b", experiment 0 [("model", JStr "r50"); ("dataset", JStr "c10"); ("lr", JNum 0.5)]
                               [("best_accuracy", JNum 0.5)])];
     stdout := [];
     clock := 0 |}.

(** An aged experiment whose results document reports exactly the threshold,
    next to one that reports more; thirty days are 2592000 seconds. *)
Definition aged_runs : world :=
  {| files :=
       [("at_threshold", experiment 0 [("model", JStr "r18")]
                                      [("best_accuracy", JNum preservation_threshold)]);
        ("above", experiment 0 [("model", JStr "r18")]
                               [("best_accuracy", JNum 0.9375)])];
     stdout := [];
     clock := 3000000 |}.

(** An aged sweep parent, whose one job reports 0.9375, and an aged
    [shortcuts] directory. *)
Definition aged_sweep : world :=
  {| files :=
       [("sweepB", Dir 0 [("job_0", experiment 0 [("model", JStr "r18")]
                                                 [("best_accuracy", JNum 0.9375)])]);
        ("shortcuts", Dir 0 [])];
     stdout := [];
     clock := 3000000 |}.

(** The cutoff of [cleanup_old_experiments]. *)
Definition cutoff_of (w : world) (keep_days : Z) : Q :=
  (clock w - inject_Z (keep_days * 24 * 3600))%Q.

(** An entry is spared when it is a file, or recent, or when its check does
    not answer that it is not high-performing. *)
Definition spared (cutoff : Q) (x : node) : Prop :=
  match x with
  | File _ => True
  | Dir mtime entries =>
      Qlt_bool mtime cutoff = true -> high_performing entries <> Ok false
  end.

(** ** Vocabulary of the statements about the index *)

(** A job subdirectory that holds an info document. *)
Definition has_info (j : string * directory) : bool :=
  exists_ "experiment_info.json" (snd j).

(** The documents of a directory load: the info document does, and so does
    the results document when there is one. *)
Definition loads (entries : directory) : Prop :=
  (exists info, open_json entries "experiment_info.json" = Ok info)
  /\ (exists_ "results.json" entries = true ->
      exists results, open_json entries "results.json" = Ok results).

(** Lexicographic order of names. *)
Definition name_le (a b : string) : Prop := String.leb a b = true.

(** The two derived fields of every record. *)
Definition derived (name path : string) (r : dict) : Prop :=
  get "folder_name" r = Some (JStr name) /\ get "full_path" r = Some (JStr path).

(** The two fields the builder adds to the record of a sweep job. *)
Definition tagged (parent job : string) (r : dict) : Prop :=
  get "sweep_parent" r = Some (JStr parent) /\ get "job_number" r = Some (JStr job).

(** The member [k: v] is written in one of the two documents of a directory. *)
Definition from_documents (entries : directory) (k : string) (v : json) : Prop :=
  (exists info, open_json entries "experiment_info.json" = Ok info /\ In (k, v) info)
  \/ (exists results, open_json entries "results.json" = Ok results /\ In (k, v) results).

(** The example of the specification: one regular experiment and a sweep
    with two jobs, listed in reverse order of their names. *)
Definition sweepB_jobs : directory :=
  [("job_1", experiment 0 [("model", JStr "r18"); ("dataset", JStr "c10"); ("lr", JNum 0.5)]
                          [("best_accuracy", JNum 0.9375)]);
   ("job_0", experiment 0 [("model", JStr "r18"); ("dataset", JStr "c10"); ("lr", JNum 0.25)]
                          [("best_accuracy", JNum 0.5)])].

Definition spec_example : directory :=
  [("expA", experiment 0 [("model", JStr "r18"); ("dataset", JStr "c10"); ("lr", JNum 0.25)]
                         [("best_accuracy", JNum 0.875)]);
   ("sweepB", Dir 0 sweepB_jobs)].

(** The record the builder makes of [expA]. *)
Definition expA_record : dict :=
  [("model", JStr "r18"); ("dataset", JStr "c10"); ("lr", JNum 0.25);
   ("best_accuracy", JNum 0.875);
   ("folder_name", JStr "expA"); ("full_path", JStr "outputs/expA")].

(** A regular experiment whose info document has a key [sweep_parent]. *)
Definition labelled_run : directory :=
  [("expA", Dir 0 [("experiment_info.json",
                    File (document [("model", JStr "r18"); ("sweep_parent", JStr "x")]))])].

(** ** Vocabulary of the statements about ranking *)

(** [r1] is not below [r2] on column [c]: its number is at least the number
    of [r2], and any row is above a row without a number. *)
Definition ranks_above (c : string) (r1 r2 : dict) : Prop :=
  match number c r1, number c r2 with
  | Some x, Some y => (y <= x)%Q
  | _, None => True
  | None, Some _ => False
  end.

(** The rows whose number on column [c] is [q]: a group of ties. *)
Definition tied (c : string) (q : Q) (r : dict) : bool :=
  match number c r with
  | Some x => Qeq_bool x q
  | None => false
  end.

(** The cells of the table [find_best_experiments] prints. *)
Definition shown_cells (metric : string) (rs : list dict) : list (list json) :=
  map (fun r => map (cell r) ["folder_name"; "model"; "dataset"; metric]) rs.

(** ** Vocabulary of the statements about the folder-name search *)

(** Following the words of the specification, a case-insensitive substring
    match: [q] occurs in [s] when letter case is set aside. *)
Fixpoint prefix_ci (q s : string) : bool :=
  match q, s with
  | "", _ => true
  | String _ _, "" => false
  | String a q', String b s' => Ascii.eqb (lower a) (lower b) && prefix_ci q' s'
  end.

Fixpoint substring_ci (q s : string) : bool :=
  prefix_ci q s
  || match s with
     | "" => false
     | String _ s' => substring_ci q s'
     end.

Fixpoint lower_string (s : string) : string :=
  match s with
  | "" => ""
  | String c s' => String (lower c) (lower_string s')
  end.

(** A query without any character that a pattern gives a meaning to. *)
Definition literal (q : string) : bool :=
  forallb (fun c => negb (special c) && negb (Ascii.eqb c "."))
          (list_ascii_of_string q).

(** The records whose folder name contains the query as a substring. *)
Definition hit (q : string) (r : dict) : bool :=
  match cell r "folder_name" with
  | JStr s => substring_ci q s
  | _ => false
  end.

(** One experiment, in a directory named [abc]. *)
Definition abc_run : world :=
  {| files := [("abc", experiment 0 [("model", JStr "r18"); ("dataset", JStr "c10")]
                                    [("best_accuracy", JNum 0.5)])];
     stdout := [];
     clock := 0 |}.

(** ** Vocabulary of the further statements *)

(** The line the builder prints. *)
Definition created_line (n : nat) : printed :=
  Print [Lit ("Created experiment index with " ++ str_nat n ++ " experiments")].

(** A record passes the filters: it equals the expected value on every
    filter key that is a column of the table. *)
Definition passes (df : DataFrame) (filters : dict) (r : dict) : bool :=
  forallb (fun kv => negb (has_column df (fst kv)) || py_eqb (cell r (fst kv)) (snd kv))
          filters.

(** The columns [find_experiments] asks for. *)
Definition find_columns (df : DataFrame) : list string :=
  ["folder_name"; "model"; "dataset"; "lr"; "best_accuracy"]
  ++ (if has_column df "sweep_parent" then ["sweep_parent"; "job_number"] else []).

(** An action that leaves the directory tree and the clock as they are. *)
Definition read_only {A} (m : M A) : Prop :=
  forall w, files (snd (m w)) = files w /\ clock (snd (m w)) = clock w.

(** The rows of a sweep. *)
Definition in_sweep (sweep_name : string) (r : dict) : bool :=
  py_eqb (cell r "sweep_parent") (JStr sweep_name).

(** The line [list_sweeps] prints for one sweep. *)
Definition sweep_line (df : DataFrame) (sweep : json) : printed :=
  Print [Lit "  "; Val sweep;
         Lit (" (" ++ str_nat (List.length (filter (fun r => py_eqb (cell r "sweep_parent") sweep)
                                                (rows df)))
                   ++ " jobs)")].

(** A cell that holds a string or nothing. *)
Definition text_or_missing (v : json) : Prop :=
  (exists s, v = JStr s) \/ missing_cell v = true.

(** The check of the cleanup answers for every aged directory of a listing. *)
Definition checks_answer (cutoff : Q) (listing : directory) : Prop :=
  Forall (fun e => match snd e with
                   | File _ => True
                   | Dir mtime entries =>
                       Qlt_bool mtime cutoff = true ->
                       exists b, high_performing entries = Ok b
                   end) listing.

(** The example of the specification, indexed: the index file reads back as
    the table of the three records. *)
Definition spec_world : world := {| files := spec_example; stdout := []; clock := 0 |}.

Definition indexed_world : world :=
  snd (create_experiment_index csv_of default_organizer spec_world).

Definition indexed_frame : DataFrame :=
  match fst (create_experiment_index csv_of default_organizer spec_world) with
  | Ok df => df
  | Raise _ => pd_DataFrame []
  end.

(** An experiment whose results document does not load, after an aged one
    that is deleted and before one that would be. *)
Definition unreadable_results : file :=
  {| json_load := Raise JSONDecodeError; read_csv := Raise ParserError |}.

Definition broken_runs : world :=
  {| files :=
       [("old_low", experiment 0 [("model", JStr "r18")] [("best_accuracy", JNum 0.5)]);
        ("broken", Dir 0 [("experiment_info.json", File (document [("model", JStr "r18")]));
                          ("results.json", File unreadable_results)]);
        ("later_low", experiment 0 [("model", JStr "r18")] [("best_accuracy", JNum 0.25)])];
     stdout := [];
     clock := 3000000 |}.

(** Aged experiments: one without the metric in its results, one recent. *)
Definition mixed_runs : world :=
  {| files :=
       [("no_metric", experiment 0 [("model", JStr "r18")] [("loss", JNum 0.125)]);
        ("recent", experiment 2999999 [("model", JStr "r18")] [("best_accuracy", JNum 0.5)]);
        ("notes.txt", File unreadable_results)];
     stdout := [];
     clock := 3000000 |}.

(** The columns [list_experiments] asks for. *)
Definition list_columns : list string :=
  ["folder_name"; "model"; "dataset"; "lr"; "best_accuracy"; "timestamp"].

(** ** Vocabulary of the statements about job subdirectories and failures *)

(** A job subdirectory that is indexed, in the words of the source: a
    directory whose name starts with [job_] and that holds an info
    document. *)
Definition is_job (e : string * node) : bool :=
  match snd e with
  | Dir _ entries =>
      String.prefix "job_" (fst e) && exists_ "experiment_info.json" entries
  | File _ => false
  end.

(** Every document the builder opens below an entry of the base directory
    loads. *)
Definition documents_load (e : string * node) : Prop :=
  match snd e with
  | File _ => True
  | Dir _ entries =>
      if exists_ "experiment_info.json" entries then loads entries
      else forall job mtime jentries,
          In (job, Dir mtime jentries) entries ->
          is_job (job, Dir mtime jentries) = true ->
          loads jentries
  end.

(** The number of records an entry of the base directory stands for. *)
Definition contributes (e : string * node) : nat :=
  match snd e with
  | File _ => 0
  | Dir _ entries =>
      if exists_ "experiment_info.json" entries then 1
      else List.length (filter is_job entries)
  end.

(** The folder names an entry of the base directory stands for, in order:
    none for a file, its own name for a regular experiment, the names of
    its indexed job subdirectories in lexicographic order for a sweep
    parent. *)
Definition segment (e : string * node) (names : list string) : Prop :=
  match snd e with
  | File _ => names = []
  | Dir _ entries =>
      if exists_ "experiment_info.json" entries then names = [fst e]
      else Permutation names (map fst (filter is_job entries))
           /\ StronglySorted name_le names
  end.

(** A directory with an info document, one of whose documents does not
    load. *)
Definition document_fails (entries : directory) (e : exn) : Prop :=
  exists_ "experiment_info.json" entries = true
  /\ (open_json entries "experiment_info.json" = Raise e
      \/ ((exists info, open_json entries "experiment_info.json" = Ok info)
          /\ exists_ "results.json" entries = true
          /\ open_json entries "results.json" = Raise e)).

(** The two lines the loop of the cleanup prints. *)
Definition decision_line (l : printed) : Prop :=
  exists name,
    l = Print [Lit ("Keeping high-performing experiment: " ++ name)]
    \/ l = Print [Lit ("Removing old experiment: " ++ name)].

(** An aged sweep parent, listed after an aged experiment whose results
    document does not load. *)
Definition blocked_sweep : world :=
  {| files :=
       [("broken", Dir 0 [("experiment_info.json", File (document [("model", JStr "r18")]));
                          ("results.json", File unreadable_results)]);
        ("sweepB", Dir 0 [("job_0", experiment 0 [("model", JStr "r18")]
                                                 [("best_accuracy", JNum 0.9375)])])];
     stdout := [];
     clock := 3000000 |}.

(** Two experiments whose info documents have neither [model] nor
    [dataset]. *)
Definition bare_runs : world :=
  {| files :=
       [("abc1", experiment 0 [("lr", JNum 0.25)] [("best_accuracy", JNum 0.75)]);
        ("abc2", experiment 0 [("lr", JNum 0.5)] [("best_accuracy", JNum 0.5)])];
     stdout := [];
     clock := 0 |}.


(** A sweep parent one of whose jobs has a results document that does not
    load. *)
Definition broken_job : world :=
  {| files :=
       [("expA", experiment 0 [("model", JStr "r18")] [("best_accuracy", JNum 0.5)]);
        ("sweepD",
         Dir 0 [("job_0", experiment 0 [("model", JStr "r18")] [("best_accuracy", JNum 0.5)]);
                ("job_1", Dir 0 [("experiment_info.json",
                                  File (document [("model", JStr "r18")]));
                                 ("results.json", File unreadable_results)])])];
     stdout := [];
     clock := 0 |}.

(** A value that [==] and the orderings treat as the model does: a scalar,
    and when it is a number one of magnitude at most 2^53. *)
Definition plain_value (v : json) : bool := scalar_value v && exact_cell v.

(** * Properties *)

Local Open Scope monad_scope.

(** ** Command dispatch *)

(** C1: the command [shortcuts] raises [AttributeError] before anything is
    selected, cleared or created: the class has no [create_shortcuts].  The
    base directory and the output are left as they were and the interpreter
    exits with status 1. *)
Theorem shortcuts_command_raises :
  forall to_csv re_search prog rest w,
    main to_csv re_search (prog :: "shortcuts" :: rest) w
    = (Raise (AttributeError "create_shortcuts"), w)
    /\ exit_status (main to_csv re_search (prog :: "shortcuts" :: rest) w) = 1%Z.
Proof.
  intros to_csv re_search prog rest w.
  unfold main; simpl; split; reflexivity.
Qed.

(** C4, as the code has it: on a base directory without [experiment_index.csv]
    each of the three operations that reload the index raises
    [FileNotFoundError], printing nothing and changing nothing. *)
Theorem queries_need_index :
  forall self filters sweep_name w,
    lookup "experiment_index.csv" (files w) = None ->
    find_experiments self filters w = (Raise FileNotFoundError, w)
    /\ list_sweeps self w = (Raise FileNotFoundError, w)
    /\ analyze_sweep self sweep_name w = (Raise FileNotFoundError, w).
Proof.
  intros self filters sweep_name w Hmissing.
  assert (Hread : read_index w = (Raise FileNotFoundError, w)).
  { unfold read_index, bind, listdir, lift, pd_read_csv. now rewrite Hmissing. }
  unfold find_experiments, list_sweeps, analyze_sweep, bind.
  now rewrite Hread.
Qed.

Lemma queries_need_index_witness :
  lookup "experiment_index.csv" (files fresh_root) = None
  /\ find_experiments default_organizer [("model", JStr "r18")] fresh_root
     = (Raise FileNotFoundError, fresh_root)
  /\ list_sweeps default_organizer fresh_root = (Raise FileNotFoundError, fresh_root)
  /\ analyze_sweep default_organizer "sweepB" fresh_root = (Raise FileNotFoundError, fresh_root).
Proof.
  split; [reflexivity |].
  apply (queries_need_index default_organizer [("model", JStr "r18")] "sweepB" fresh_root).
  reflexivity.
Defined.

(** C4, counterexample: on a fresh base directory the three query operations
    end in an exception instead of completing. *)
Lemma queries_raise_on_fresh_root :
  fst (find_experiments default_organizer [] fresh_root) = Raise FileNotFoundError
  /\ fst (list_sweeps default_organizer fresh_root) = Raise FileNotFoundError
  /\ fst (analyze_sweep default_organizer "sweepB" fresh_root) = Raise FileNotFoundError.
Proof. repeat split; reflexivity. Qed.

(** C5, as the code has it: an unknown command, and [cd] or [analyze_sweep]
    without its argument, print [Unknown command: <command>] and the script
    runs to its end, so the exit status is 0; the usage message and the exit
    status 1 belong to an invocation without any command. *)
Theorem unknown_command_is_reported :
  forall to_csv re_search prog command rest w,
    mem command commands = false
    \/ ((command = "cd" \/ command = "analyze_sweep") /\ rest = []) ->
    main to_csv re_search (prog :: command :: rest) w
    = (Ok tt, printing w [Print [Lit ("Unknown command: " ++ command)]])
    /\ exit_status (main to_csv re_search (prog :: command :: rest) w) = 0%Z
    /\ main to_csv re_search [prog] w
       = (Raise (SystemExit 1), printing w [Print [Lit usage]])
    /\ exit_status (main to_csv re_search [prog] w) = 1%Z.
Proof.
  intros to_csv re_search prog command rest w H.
  assert (Hrun : main to_csv re_search (prog :: command :: rest) w
                 = (Ok tt, printing w [Print [Lit ("Unknown command: " ++ command)]])).
  { destruct H as [Hunknown | [[-> | ->] ->]]; [| reflexivity | reflexivity].
    unfold mem, commands in Hunknown; simpl in Hunknown.
    repeat (apply orb_false_iff in Hunknown; destruct Hunknown as [?E Hunknown]).
    unfold main; simpl. rewrite E, E0, E1, E2, E3, E4, E5; simpl.
    reflexivity. }
  repeat split; try reflexivity; try exact Hrun.
  unfold exit_status; now rewrite Hrun.
Qed.

Lemma unknown_command_is_reported_witness :
  main csv_of no_re ["experiment_tracker.py"; "cd"] fresh_root
  = (Ok tt, printing fresh_root [Print [Lit "Unknown command: cd"]])
  /\ exit_status (main csv_of no_re ["experiment_tracker.py"; "cd"] fresh_root) = 0%Z
  /\ main csv_of no_re ["experiment_tracker.py"] fresh_root
     = (Raise (SystemExit 1), printing fresh_root [Print [Lit usage]])
  /\ exit_status (main csv_of no_re ["experiment_tracker.py"] fresh_root) = 1%Z.
Proof.
  apply (unknown_command_is_reported csv_of no_re "experiment_tracker.py" "cd" [] fresh_root).
  right; split; [left; reflexivity | reflexivity].
Defined.

(** C5, counterexample: the unknown command [bogus] prints a line that is not
    the usage message and the exit status is 0. *)
Lemma unknown_command_exits_zero :
  stdout (snd (main csv_of no_re ["experiment_tracker.py"; "bogus"] fresh_root))
  = [Print [Lit "Unknown command: bogus"]]
  /\ exit_status (main csv_of no_re ["experiment_tracker.py"; "bogus"] fresh_root) = 0%Z.
Proof. split; reflexivity. Qed.

(** C6, counterexample: [find_best lr 1] on two runs prints both of them
    ranked by [best_accuracy], not the one run with the largest [lr]. *)
Lemma find_best_ignores_arguments :
  stdout (snd (main csv_of no_re ["experiment_tracker.py"; "find_best"; "lr"; "1"] two_runs))
  = [Print [Lit "Created experiment index with 2 experiments"];
     Print [Lit (nl ++ "Top 5 experiments by best_accuracy:")];
     PrintTable ["folder_name"; "model"; "dataset"; "best_accuracy"]
       [[JStr "run_a"; JStr "r18"; JStr "c10"; JNum 0.75];
        [JStr "run_b"; JStr "r50"; JStr "c10"; JNum 0.5]]]
  /\ stdout (snd (find_best_experiments csv_of "lr" 1 two_runs))
     = [Print [Lit "Created experiment index with 2 experiments"];
        Print [Lit (nl ++ "Top 1 experiments by lr:")];
        PrintTable ["folder_name"; "model"; "dataset"; "lr"]
          [[JStr "run_b"; JStr "r50"; JStr "c10"; JNum 0.5]]].
Proof. split; vm_compute; reflexivity. Qed.

(** ** Retention cleanup *)

Lemma lookup_remove (n m : string) (d : directory) :
  lookup n (remove m d) = if String.eqb m n then None else lookup n d.
Proof.
  induction d as [| [k x] d IH]; simpl.
  - now destruct (String.eqb m n).
  - destruct (String.eqb m k) eqn:Emk; simpl.
    + apply String.eqb_eq in Emk; subst k.
      rewrite IH. rewrite (String.eqb_sym n m).
      now destruct (String.eqb m n).
    + rewrite IH.
      destruct (String.eqb n k) eqn:Enk; [| reflexivity].
      apply String.eqb_eq in Enk; subst k. now rewrite Emk.
Qed.

Lemma lookup_In (n : string) (x : node) (d : directory) :
  lookup n d = Some x -> In (n, x) d.
Proof.
  induction d as [| [k y] d IH]; simpl; [discriminate |].
  destruct (String.eqb n k) eqn:E.
  - apply String.eqb_eq in E; subst k. intros [= ->]. now left.
  - intros H. right. now apply IH.
Qed.

Lemma lookup_unique (n : string) (x y : node) (d : directory) :
  NoDup (map fst d) -> lookup n d = Some x -> In (n, y) d -> y = x.
Proof.
  induction d as [| [k z] d IH]; simpl; [intros _ [=] |].
  intros Hnd Hl Hin. inversion Hnd as [| ? ? Hk Hnd']; subst.
  destruct (String.eqb n k) eqn:E.
  - apply String.eqb_eq in E; subst k. injection Hl as ->.
    destruct Hin as [[= ->] | Hin]; [reflexivity |].
    exfalso. apply Hk. now apply (in_map fst) in Hin.
  - destruct Hin as [[= -> _] | Hin]; [now rewrite String.eqb_refl in E |].
    now apply IH.
Qed.

(** One round of the loop, by the decision taken on the entry. *)
Lemma cleanup_loop_file cutoff name f rest removed w :
  cleanup_loop cutoff ((name, File f) :: rest) removed w
  = cleanup_loop cutoff rest removed w.
Proof. reflexivity. Qed.

Lemma cleanup_loop_recent cutoff name mtime entries rest removed w :
  Qlt_bool mtime cutoff = false ->
  cleanup_loop cutoff ((name, Dir mtime entries) :: rest) removed w
  = cleanup_loop cutoff rest removed w.
Proof. intros H; simpl; now rewrite H. Qed.

Lemma cleanup_loop_keep cutoff name mtime entries rest removed w :
  Qlt_bool mtime cutoff = true ->
  high_performing entries = Ok true ->
  cleanup_loop cutoff ((name, Dir mtime entries) :: rest) removed w
  = cleanup_loop cutoff rest removed
      (printing w [Print [Lit ("Keeping high-performing experiment: " ++ name)]]).
Proof. intros H1 H2; simpl; rewrite H1; unfold bind, lift; now rewrite H2. Qed.

Lemma cleanup_loop_delete cutoff name mtime entries rest removed w :
  Qlt_bool mtime cutoff = true ->
  high_performing entries = Ok false ->
  cleanup_loop cutoff ((name, Dir mtime entries) :: rest) removed w
  = cleanup_loop cutoff rest (removed + 1)
      {| files := remove name (files w);
         stdout := stdout w ++ [Print [Lit ("Removing old experiment: " ++ name)]];
         clock := clock w |}.
Proof. intros H1 H2; simpl; rewrite H1; unfold bind, lift; now rewrite H2. Qed.

Lemma cleanup_loop_abort cutoff name mtime entries rest removed w e :
  Qlt_bool mtime cutoff = true ->
  high_performing entries = Raise e ->
  cleanup_loop cutoff ((name, Dir mtime entries) :: rest) removed w = (Raise e, w).
Proof. intros H1 H2; simpl; rewrite H1; unfold bind, lift; now rewrite H2. Qed.

(** Case analysis on the first entry of the listing. *)
Ltac cleanup_round cutoff name mtime entries :=
  let Hage := fresh "Hage" in
  let Hcheck := fresh "Hcheck" in
  destruct (Qlt_bool mtime cutoff) eqn:Hage;
  [ destruct (high_performing entries) as [[|] | ?e] eqn:Hcheck;
    [ rewrite (cleanup_loop_keep _ _ _ _ _ _ _ Hage Hcheck)
    | rewrite (cleanup_loop_delete _ _ _ _ _ _ _ Hage Hcheck)
    | rewrite (cleanup_loop_abort _ _ _ _ _ _ _ _ Hage Hcheck) ]
  | rewrite (cleanup_loop_recent _ _ _ _ _ _ _ Hage) ].

(** The loop only ever deletes. *)
Lemma cleanup_loop_shrinks n cutoff listing :
  forall removed w,
    lookup n (files (snd (cleanup_loop cutoff listing removed w))) = lookup n (files w)
    \/ lookup n (files (snd (cleanup_loop cutoff listing removed w))) = None.
Proof.
  induction listing as [| [name [f | mtime entries]] rest IH]; intros removed w.
  - now left.
  - rewrite cleanup_loop_file. apply IH.
  - cleanup_round cutoff name mtime entries.
    + apply (IH removed (printing w _)).
    + destruct (IH (removed + 1)%Z
                   {| files := remove name (files w);
                      stdout := stdout w ++ [Print [Lit ("Removing old experiment: " ++ name)]];
                      clock := clock w |}) as [H | H]; [| now right].
      rewrite H; simpl. rewrite lookup_remove.
      destruct (String.eqb name n); [now right | now left].
    + now left.
    + apply IH.
Qed.

Lemma cleanup_loop_keeps n cutoff listing :
  forall removed w,
    (forall x, In (n, x) listing -> spared cutoff x) ->
    lookup n (files (snd (cleanup_loop cutoff listing removed w))) = lookup n (files w).
Proof.
  induction listing as [| [name [f | mtime entries]] rest IH]; intros removed w Hsp.
  - reflexivity.
  - rewrite cleanup_loop_file. apply IH. intros x Hx; apply Hsp; now right.
  - assert (Hrest : forall x, In (n, x) rest -> spared cutoff x)
      by (intros x Hx; apply Hsp; now right).
    cleanup_round cutoff name mtime entries.
    + now rewrite IH.
    + rewrite IH by assumption. simpl. rewrite lookup_remove.
      destruct (String.eqb name n) eqn:E; [| reflexivity].
      apply String.eqb_eq in E; subst n.
      exfalso. apply (Hsp (Dir mtime entries)); [now left | assumption | assumption].
    + reflexivity.
    + now apply IH.
Qed.

Lemma cleanup_loop_removes n mtime entries cutoff listing :
  forall removed w,
    (exists r, fst (cleanup_loop cutoff listing removed w) = Ok r) ->
    In (n, Dir mtime entries) listing ->
    Qlt_bool mtime cutoff = true ->
    high_performing entries = Ok false ->
    lookup n (files (snd (cleanup_loop cutoff listing removed w))) = None.
Proof.
  induction listing as [| [name [f | mt es]] rest IH];
    intros removed w Hok Hin Hold Hdoom.
  - destruct Hin.
  - rewrite cleanup_loop_file in *.
    destruct Hin as [[=] | Hin]. now apply IH.
  - destruct Hin as [Heq | Hin].
    + injection Heq as E1 E2 E3; subst.
      rewrite (cleanup_loop_delete _ _ _ _ _ _ _ Hold Hdoom).
      match goal with
      | |- lookup ?k (files (snd (cleanup_loop ?c ?l ?r ?w0))) = None =>
          destruct (cleanup_loop_shrinks k c l r w0) as [H | H]; [| exact H]
      end.
      rewrite H; simpl. rewrite lookup_remove. now rewrite String.eqb_refl.
    + revert Hok. cleanup_round cutoff name mt es; intros Hok.
      * apply IH; auto.
      * apply IH; auto.
      * destruct Hok as [r Hr]; discriminate.
      * apply IH; auto.
Qed.

Lemma Qlt_bool_iff (x y : Q) : Qlt_bool x y = true <-> (x < y)%Q.
Proof.
  unfold Qlt_bool. rewrite negb_true_iff, <- not_true_iff_false, Qle_bool_iff.
  split; [apply Qnot_le_lt | apply Qlt_not_le].
Qed.

Lemma Qlt_bool_false_iff (x y : Q) : Qlt_bool x y = false <-> (y <= x)%Q.
Proof.
  unfold Qlt_bool. rewrite negb_false_iff. apply Qle_bool_iff.
Qed.

Lemma cleanup_files self keep_days w :
  files (snd (cleanup_old_experiments self keep_days w))
  = files (snd (cleanup_loop (cutoff_of w keep_days) (files w) 0 w)).
Proof.
  unfold cleanup_old_experiments, bind, now, listdir, cutoff_of; simpl.
  now destruct (cleanup_loop _ (files w) 0 w) as [[r | e] w'].
Qed.

Lemma cleanup_completes self keep_days w :
  fst (cleanup_old_experiments self keep_days w) = Ok tt ->
  exists r, fst (cleanup_loop (cutoff_of w keep_days) (files w) 0 w) = Ok r.
Proof.
  unfold cleanup_old_experiments, bind, now, listdir, cutoff_of; simpl.
  destruct (cleanup_loop _ (files w) 0 w) as [[r | e] w']; simpl.
  - intros _. now exists r.
  - discriminate.
Qed.

(** The check, on a directory whose results document reports a number. *)
Lemma high_performing_number entries results v :
  open_json entries "results.json" = Ok results ->
  get "best_accuracy" results = Some (JNum v) ->
  high_performing entries = Ok (Qlt_bool preservation_threshold v).
Proof.
  intros Hopen Hget. unfold high_performing, exists_.
  assert (Hex : lookup "results.json" entries <> None).
  { unfold open_json in Hopen. now destruct (lookup "results.json" entries). }
  destruct (lookup "results.json" entries) eqn:E; [| contradiction].
  rewrite Hopen; simpl. now rewrite Hget.
Qed.

(** The check, on a directory without a results document of its own. *)
Lemma high_performing_no_results entries :
  lookup "results.json" entries = None -> high_performing entries = Ok false.
Proof. intros H. unfold high_performing, exists_. now rewrite H. Qed.

(** C2, as the code has it: the test is [best_accuracy > 0.9].  An experiment
    directory whose [results.json] reports a number strictly above the
    threshold is never deleted; one that reports the threshold or less and is
    older than the cutoff is deleted by a cleanup that runs to its end. *)
Theorem cleanup_keeps_strictly_above :
  forall self keep_days w name mtime entries results v,
    NoDup (map fst (files w)) ->
    lookup name (files w) = Some (Dir mtime entries) ->
    open_json entries "results.json" = Ok results ->
    get "best_accuracy" results = Some (JNum v) ->
    ((preservation_threshold < v)%Q ->
     lookup name (files (snd (cleanup_old_experiments self keep_days w)))
     = Some (Dir mtime entries))
    /\ ((v <= preservation_threshold)%Q ->
        (mtime < cutoff_of w keep_days)%Q ->
        fst (cleanup_old_experiments self keep_days w) = Ok tt ->
        lookup name (files (snd (cleanup_old_experiments self keep_days w))) = None).
Proof.
  intros self keep_days w name mtime entries results v Hnd Hdir Hopen Hget.
  pose proof (high_performing_number _ _ _ Hopen Hget) as Hhp.
  rewrite cleanup_files. split.
  - intros Habove. rewrite cleanup_loop_keeps; [exact Hdir |].
    intros x Hx. rewrite (lookup_unique _ _ _ _ Hnd Hdir Hx). simpl.
    intros _. rewrite Hhp. apply Qlt_bool_iff in Habove. now rewrite Habove.
  - intros Hbelow Hold Hok.
    apply (cleanup_loop_removes name mtime entries).
    + now apply cleanup_completes with (self := self).
    + now apply lookup_In.
    + now apply Qlt_bool_iff.
    + rewrite Hhp. apply Qlt_bool_false_iff in Hbelow. now rewrite Hbelow.
Qed.

Lemma cleanup_keeps_strictly_above_witness :
  lookup "above" (files (snd (cleanup_old_experiments default_organizer 30 aged_runs)))
  = lookup "above" (files aged_runs)
  /\ lookup "at_threshold" (files (snd (cleanup_old_experiments default_organizer 30 aged_runs)))
     = None.
Proof.
  assert (Hnd : NoDup (map fst (files aged_runs))).
  { simpl. repeat constructor; simpl; intuition discriminate. }
  split.
  - apply (cleanup_keeps_strictly_above default_organizer 30 aged_runs "above" 0
             (experiment_files [("model", JStr "r18")] [("best_accuracy", JNum 0.9375)])
             [("best_accuracy", JNum 0.9375)] 0.9375 Hnd);
      reflexivity.
  - apply (cleanup_keeps_strictly_above default_organizer 30 aged_runs "at_threshold" 0
             (experiment_files [("model", JStr "r18")]
                               [("best_accuracy", JNum preservation_threshold)])
             [("best_accuracy", JNum preservation_threshold)]
             preservation_threshold Hnd);
      try reflexivity.
    unfold Qle, preservation_threshold; simpl; lia.
Defined.

(** C2, counterexample: an aged directory whose [results.json] reports exactly
    the threshold (a value greater than or equal to it) is deleted. *)
Lemma cleanup_removes_at_threshold :
  get "best_accuracy" [("best_accuracy", JNum preservation_threshold)]
  = Some (JNum preservation_threshold)
  /\ Qle_bool preservation_threshold preservation_threshold = true
  /\ Qlt_bool 0 (cutoff_of aged_runs 30) = true
  /\ fst (cleanup_old_experiments default_organizer 30 aged_runs) = Ok tt
  /\ lookup "at_threshold" (files (snd (cleanup_old_experiments default_organizer 30 aged_runs)))
     = None
  /\ stdout (snd (cleanup_old_experiments default_organizer 30 aged_runs))
     = [Print [Lit "Removing old experiment: at_threshold"];
        Print [Lit "Keeping high-performing experiment: above"];
        Print [Lit "Removed 1 old experiments"]].
Proof. repeat split; vm_compute; reflexivity. Qed.

(** ** Dictionaries *)

Lemma get_setitem_same k v d : get k (setitem k v d) = Some v.
Proof.
  induction d as [| [k' v'] d IH]; simpl.
  - now rewrite String.eqb_refl.
  - destruct (String.eqb k k') eqn:E; simpl; now rewrite E.
Qed.

Lemma get_setitem_other k k' v d :
  String.eqb k k' = false -> get k (setitem k' v d) = get k d.
Proof.
  intros Hne. induction d as [| [k0 v0] d IH]; simpl.
  - now rewrite Hne.
  - destruct (String.eqb k' k0) eqn:E; simpl.
    + apply String.eqb_eq in E; subst k0. now rewrite Hne.
    + now rewrite IH.
Qed.

Lemma get_In k v d : get k d = Some v -> In (k, v) d.
Proof.
  induction d as [| [k' v'] d IH]; simpl; [discriminate |].
  destruct (String.eqb k k') eqn:E.
  - apply String.eqb_eq in E; subst k'. intros [= ->]. now left.
  - intros H. right. now apply IH.
Qed.

Lemma In_setitem k v k' v' d :
  In (k, v) (setitem k' v' d) -> (k, v) = (k', v') \/ In (k, v) d.
Proof.
  induction d as [| [k0 v0] d IH]; simpl.
  - intros [H | []]. now left.
  - destruct (String.eqb k' k0) eqn:E; simpl.
    + apply String.eqb_eq in E; subst k0.
      intros [H | H]; [now left | now right; right].
    + intros [H | H]; [now right; left |].
      destruct (IH H) as [H' | H']; [now left | now right; right].
Qed.

(** A member of [d.update(other)] comes from [d] or from [other]. *)
Lemma In_update k v other :
  forall d, In (k, v) (update d other) -> In (k, v) d \/ In (k, v) other.
Proof.
  unfold update. induction other as [| [k' v'] other IH]; intros d H; simpl in *.
  - now left.
  - destruct (IH _ H) as [Hd | Ho]; [| now right; right].
    destruct (In_setitem _ _ _ _ _ Hd) as [Heq | Hin]; [| now left].
    right; left. now symmetry.
Qed.

(** ** Traversals *)


Lemma collect_In {A B} (f : A -> result (list B)) l :
  forall all r,
    collect f l = Ok all -> In r all ->
    exists a bs, In a l /\ f a = Ok bs /\ In r bs.
Proof.
  induction l as [| x l IH]; intros all r H Hin; simpl in *.
  - injection H as <-. destruct Hin.
  - destruct (f x) as [bs | e] eqn:Ex; simpl in *; [| discriminate].
    destruct (collect f l) as [rest | e] eqn:E; simpl in *; [| discriminate].
    injection H as <-. apply in_app_or in Hin as [Hin | Hin].
    + exists x, bs. auto.
    + destruct (IH _ _ eq_refl Hin) as (a & bs' & Ha & Hf & Hr).
      exists a, bs'. auto.
Qed.

(** ** Sorting *)

Section SortingFacts.
Context {A : Type} (le : A -> A -> bool).

Lemma insert_perm x l : Permutation (insert le x l) (x :: l).
Proof.
  induction l as [| y l IH]; simpl; [reflexivity |].
  destruct (le x y); [reflexivity |].
  rewrite IH. apply perm_swap.
Qed.

Lemma sorted_perm l : Permutation (sorted le l) l.
Proof.
  induction l as [| x l IH]; simpl; [reflexivity |].
  rewrite insert_perm. now constructor.
Qed.

Lemma Forall_insert (P : A -> Prop) x l :
  P x -> Forall P l -> Forall P (insert le x l).
Proof.
  intros Hx Hl. induction Hl as [| y l Hy Hl IH]; simpl.
  - now constructor.
  - destruct (le x y); repeat constructor; assumption.
Qed.

(** Rows that [p] selects keep their relative order when [le] relates any
    two of them: the sort is stable. *)
Lemma filter_insert (p : A -> bool) x l :
  (forall y, In y l -> p x = true -> p y = true -> le x y = true) ->
  filter p (insert le x l) = filter p (x :: l).
Proof.
  induction l as [| y l IH]; intros Hties; [reflexivity |].
  simpl. destruct (le x y) eqn:E; [reflexivity |].
  simpl. rewrite IH by (intros z Hz; apply Hties; now right).
  simpl. destruct (p x) eqn:Px, (p y) eqn:Py; try reflexivity.
  rewrite (Hties y) in E by (auto; now left). discriminate.
Qed.

Lemma sorted_stable (p : A -> bool) l :
  (forall x y, p x = true -> p y = true -> le x y = true) ->
  filter p (sorted le l) = filter p l.
Proof.
  intros Hties. induction l as [| x l IH]; [reflexivity |].
  simpl sorted. rewrite filter_insert by (intros; now apply Hties).
  simpl. now rewrite IH.
Qed.

Hypothesis le_total : forall a b, le a b = false -> le b a = true.
Hypothesis le_trans : forall a b c, le a b = true -> le b c = true -> le a c = true.

Lemma insert_sorted x l :
  StronglySorted (fun a b => le a b = true) l ->
  StronglySorted (fun a b => le a b = true) (insert le x l).
Proof.
  intros Hs. induction Hs as [| y l Hs IH Hy]; simpl.
  - repeat constructor.
  - destruct (le x y) eqn:E.
    + constructor; [now constructor |].
      constructor; [assumption |].
      eapply Forall_impl; [| exact Hy]. intros z Hz. now apply le_trans with y.
    + constructor; [assumption |].
      apply Forall_insert; [now apply le_total | assumption].
Qed.

Lemma sorted_sorted l : StronglySorted (fun a b => le a b = true) (sorted le l).
Proof.
  induction l as [| x l IH]; simpl; [constructor | now apply insert_sorted].
Qed.
End SortingFacts.

Lemma filter_perm {A} (p : A -> bool) l l' :
  Permutation l l' -> Permutation (filter p l) (filter p l').
Proof.
  induction 1 as [| x l l' _ IH | x y l | l l' l'' _ IH1 _ IH2]; simpl.
  - constructor.
  - destruct (p x); [now constructor | assumption].
  - destruct (p x), (p y); try reflexivity. apply perm_swap.
  - now transitivity (filter p l').
Qed.

(** The order of names is a total preorder. *)
Lemma string_compare_OT s1 : forall s2,
  String.compare s1 s2 = OrdersEx.String_as_OT.compare s1 s2.
Proof.
  induction s1 as [| c1 s1 IH]; destruct s2 as [| c2 s2]; reflexivity.
Qed.

Lemma string_leb_lt a b :
  String.leb a b = true <-> a = b \/ OrdersEx.String_as_OT.lt a b.
Proof.
  unfold String.leb. rewrite string_compare_OT.
  destruct (OrdersEx.String_as_OT.compare_spec a b) as [H | H | H].
  - tauto.
  - tauto.
  - split; [discriminate |]. intros [-> | H'].
    + now apply (StrictOrder_Irreflexive b) in H.
    + exfalso. apply (StrictOrder_Irreflexive a). now transitivity b.
Qed.

Lemma string_leb_trans a b c :
  String.leb a b = true -> String.leb b c = true -> String.leb a c = true.
Proof.
  rewrite !string_leb_lt. intros [-> | H1] [-> | H2]; auto.
  right. now transitivity b.
Qed.

Lemma string_leb_total a b : String.leb a b = false -> String.leb b a = true.
Proof.
  intros H. destruct (String.leb_total a b) as [H' | H']; [congruence | exact H'].
Qed.

Lemma StronglySorted_filter {A} (R : A -> A -> Prop) (p : A -> bool) l :
  StronglySorted R l -> StronglySorted R (filter p l).
Proof.
  induction 1 as [| x l Hs IH Hx]; simpl; [constructor |].
  destruct (p x); [| assumption].
  constructor; [assumption |].
  rewrite Forall_forall in *. intros y Hy. apply Hx.
  now apply filter_In in Hy.
Qed.

Lemma StronglySorted_map {A B} (R : B -> B -> Prop) (f : A -> B) l :
  StronglySorted (fun a b => R (f a) (f b)) l -> StronglySorted R (map f l).
Proof.
  induction 1 as [| x l Hs IH Hx]; simpl; constructor; [assumption |].
  rewrite Forall_forall in *. intros y Hy.
  apply in_map_iff in Hy as (a & <- & Ha). now apply Hx.
Qed.

(** ** The index builder *)

Lemma extract_fields name path entries r :
  _extract_experiment_info name path entries = Ok r ->
  derived name path r
  /\ forall k v,
      String.eqb k "folder_name" = false ->
      String.eqb k "full_path" = false ->
      get k r = Some v -> from_documents entries k v.
Proof.
  unfold _extract_experiment_info, derived, from_documents.
  destruct (open_json entries "experiment_info.json") as [info | e] eqn:Einfo;
    simpl; [| discriminate].
  destruct (exists_ "results.json" entries).
  - destruct (open_json entries "results.json") as [results | e] eqn:Eres;
      simpl; [| discriminate].
    intros [= <-]. split.
    + split; [| apply get_setitem_same].
      rewrite get_setitem_other by reflexivity. apply get_setitem_same.
    + intros k v Hk1 Hk2 Hget.
      rewrite !get_setitem_other in Hget by assumption.
      apply get_In, In_update in Hget as [H | H].
      * left. now exists info.
      * right. now exists results.
  - simpl. intros [= <-]. split.
    + split; [| apply get_setitem_same].
      rewrite get_setitem_other by reflexivity. apply get_setitem_same.
    + intros k v Hk1 Hk2 Hget.
      rewrite !get_setitem_other in Hget by assumption.
      left. exists info. split; [reflexivity | now apply get_In].
Qed.

Lemma extract_total name path entries :
  loads entries -> exists r, _extract_experiment_info name path entries = Ok r.
Proof.
  intros [[info Hinfo] Hres]. unfold _extract_experiment_info.
  rewrite Hinfo; simpl.
  destruct (exists_ "results.json" entries).
  - destruct (Hres eq_refl) as [results ->]; simpl. eauto.
  - simpl. eauto.
Qed.

Lemma index_job_fields parent_name parent_path job entries recs r :
  index_job parent_name parent_path (job, entries) = Ok recs ->
  In r recs ->
  derived job (joinpath parent_path job) r /\ tagged parent_name job r.
Proof.
  unfold index_job.
  destruct (exists_ "experiment_info.json" entries); [| intros [= <-] []].
  destruct (_extract_experiment_info job (joinpath parent_path job) entries)
    as [info | e] eqn:E; simpl; [| discriminate].
  intros [= <-] [<- | []].
  apply extract_fields in E as [[Hname Hpath] _].
  unfold derived, tagged. repeat split.
  - now rewrite !get_setitem_other by reflexivity.
  - now rewrite !get_setitem_other by reflexivity.
  - rewrite get_setitem_other by reflexivity. apply get_setitem_same.
  - apply get_setitem_same.
Qed.


(** Where a record of the index comes from, and what that tells about it. *)
Lemma record_origin :
  forall base root recs r,
    experiments base root = Ok recs ->
    In r recs ->
    exists name mtime entries,
      In (name, Dir mtime entries) root
      /\ ((exists_ "experiment_info.json" entries = true
           /\ derived name (joinpath base name) r
           /\ forall k v, k = "sweep_parent" \/ k = "job_number" ->
                          get k r = Some v -> from_documents entries k v)
          \/ (exists_ "experiment_info.json" entries = false
              /\ exists job jentries,
                  In (job, jentries) (job_dirs entries)
                  /\ derived job (joinpath (joinpath base name) job) r
                  /\ tagged name job r)).
Proof.
  intros base root recs r Hidx Hr.
  destruct (collect_In _ _ _ _ Hidx Hr) as ([name [f | mtime entries]] & bs & He & Hbs & Hrb).
  - simpl in Hbs. injection Hbs as <-. destruct Hrb.
  - exists name, mtime, entries. split; [exact He |].
    simpl in Hbs. destruct (exists_ "experiment_info.json" entries) eqn:Einfo.
    + left. split; [reflexivity |].
      destruct (_extract_experiment_info name (joinpath base name) entries)
        as [info | e] eqn:E; simpl in Hbs; [| discriminate].
      injection Hbs as <-. destruct Hrb as [<- | []].
      apply extract_fields in E as [Hd Hdoc]. split; [exact Hd |].
      intros k v [-> | ->] Hget; now apply Hdoc.
    + right. split; [reflexivity |].
      destruct (collect_In _ _ _ _ Hbs Hrb) as ([job jentries] & bs' & Hj & Hjob & Hrj).
      exists job, jentries. split.
      * now apply (Permutation_in _ (sorted_perm by_name (job_dirs entries))).
      * now apply (index_job_fields name (joinpath base name) job jentries bs').
Qed.

(** C10, as the code has it: every record of the index has [folder_name] and
    [full_path], set by the builder after the documents were merged.  The
    record of a job subdirectory has [sweep_parent] and [job_number] set by
    the builder; the record of a regular experiment has one of these two keys
    only when its own info or results document has it. *)
Theorem index_records_fields :
  forall base root recs r,
    experiments base root = Ok recs ->
    In r recs ->
    exists name mtime entries,
      In (name, Dir mtime entries) root
      /\ ((exists_ "experiment_info.json" entries = true
           /\ derived name (joinpath base name) r
           /\ forall k v, k = "sweep_parent" \/ k = "job_number" ->
                          get k r = Some v -> from_documents entries k v)
          \/ (exists_ "experiment_info.json" entries = false
              /\ exists job jentries,
                  In (job, jentries) (job_dirs entries)
                  /\ derived job (joinpath (joinpath base name) job) r
                  /\ tagged name job r)).
Proof. exact record_origin. Qed.

Lemma index_records_fields_witness :
  exists name mtime entries,
    In (name, Dir mtime entries) spec_example
    /\ ((exists_ "experiment_info.json" entries = true
         /\ derived name (joinpath "outputs" name) expA_record
         /\ forall k v, k = "sweep_parent" \/ k = "job_number" ->
                        get k expA_record = Some v -> from_documents entries k v)
        \/ (exists_ "experiment_info.json" entries = false
            /\ exists job jentries,
                In (job, jentries) (job_dirs entries)
                /\ derived job (joinpath (joinpath "outputs" name) job) expA_record
                /\ tagged name job expA_record)).
Proof.
  destruct (experiments "outputs" spec_example) as [recs | e] eqn:E;
    [| vm_compute in E; discriminate].
  apply (index_records_fields "outputs" spec_example recs); [exact E |].
  vm_compute in E. injection E as <-. left. reflexivity.
Defined.

(** C10, counterexample: the record of the regular experiment [expA], whose
    info document has a key [sweep_parent], has that field although it does
    not come from a job subdirectory. *)
Lemma regular_record_with_sweep_parent :
  experiments "outputs" labelled_run
  = Ok [[("model", JStr "r18"); ("sweep_parent", JStr "x");
         ("folder_name", JStr "expA"); ("full_path", JStr "outputs/expA")]]
  /\ exists_ "experiment_info.json"
       [("experiment_info.json",
         File (document [("model", JStr "r18"); ("sweep_parent", JStr "x")]))] = true.
Proof. split; reflexivity. Qed.

(** ** Printing and tables *)

Lemma printing_printing w a b : printing (printing w a) b = printing w (a ++ b).
Proof. unfold printing; simpl. now rewrite <- app_assoc. Qed.

Lemma mem_app k a b : mem k (a ++ b) = mem k a || mem k b.
Proof. apply existsb_app. Qed.

Lemma mem_add_keys k r :
  forall cols, mem k (add_keys cols r) = true <-> mem k cols = true \/ mem k (keys r) = true.
Proof.
  unfold add_keys. induction (keys r) as [| k' ks IH]; intros cols; simpl.
  - split; [now left | now intros [H | H]].
  - rewrite IH. destruct (mem k' cols) eqn:E.
    + destruct (String.eqb k k') eqn:Ek; simpl; [| tauto].
      apply String.eqb_eq in Ek; subst k'. rewrite E. tauto.
    + rewrite mem_app. simpl. rewrite orb_false_r, !orb_true_iff. tauto.
Qed.

Lemma mem_columns k recs :
  forall cols,
    mem k (fold_left add_keys recs cols) = true
    <-> mem k cols = true \/ exists r, In r recs /\ mem k (keys r) = true.
Proof.
  induction recs as [| r recs IH]; intros cols; simpl.
  - split; [now left | intros [H | (r & [] & _)]; exact H].
  - rewrite IH, mem_add_keys. split.
    + intros [[H | H] | (r' & Hr' & H)]; eauto.
    + intros [H | (r' & [<- | Hr'] & H)]; eauto.
Qed.

Lemma get_mem k r v : get k r = Some v -> mem k (keys r) = true.
Proof.
  induction r as [| [k' v'] r IH]; simpl; [discriminate |].
  destruct (String.eqb k k'); [reflexivity | exact IH].
Qed.

(** A key of a record is a column of the table built from the records. *)
Lemma column_of_record k v r recs :
  In r recs -> get k r = Some v -> has_column (pd_DataFrame recs) k = true.
Proof.
  intros Hr Hget. unfold has_column, pd_DataFrame; simpl.
  apply mem_columns. right. exists r. split; [exact Hr | now apply get_mem with v].
Qed.

Lemma column_from_record k recs :
  has_column (pd_DataFrame recs) k = true -> exists r, In r recs.
Proof.
  unfold has_column, pd_DataFrame; simpl. intros H.
  apply mem_columns in H as [H | (r & Hr & _)]; [discriminate | eauto].
Qed.

(** Every record of the index defines the two derived fields. *)
Lemma record_derived base root recs r :
  experiments base root = Ok recs -> In r recs ->
  exists name path, derived name path r.
Proof.
  intros Hidx Hr.
  destruct (record_origin _ _ _ _ Hidx Hr)
    as (name & mtime & entries & _ & [(_ & Hd & _) | (_ & job & jentries & _ & Hd & _)]);
    eauto.
Qed.

Section Build.
Variable to_csv : DataFrame -> file.

Lemma create_experiment_index_inv self w df w1 :
  create_experiment_index to_csv self w = (Ok df, w1) ->
  exists recs, experiments (base_dir self) (files w) = Ok recs /\ df = pd_DataFrame recs.
Proof.
  unfold create_experiment_index, bind, listdir, lift, store, print, ret.
  destruct (experiments (base_dir self) (files w)) as [recs | e]; [| discriminate].
  destruct (write _ _ (files w)) as [d | e]; [| discriminate].
  intros [= <- _]. eauto.
Qed.

(** A built index with a column has the columns of the derived fields. *)
Lemma built_columns self w df w1 c :
  create_experiment_index to_csv self w = (Ok df, w1) ->
  has_column df c = true ->
  has_column df "folder_name" = true /\ has_column df "full_path" = true.
Proof.
  intros Hbuild Hc.
  destruct (create_experiment_index_inv _ _ _ _ Hbuild) as (recs & Hrecs & ->).
  destruct (column_from_record _ _ Hc) as [r Hr].
  destruct (record_derived _ _ _ _ Hrecs Hr) as (name & path & Hn & Hp).
  split; eapply column_of_record; eauto.
Qed.
End Build.

(** ** Ranking *)

Lemma ge_by_iff c r1 r2 : ge_by c r1 r2 = true <-> ranks_above c r1 r2.
Proof.
  unfold ge_by, ranks_above.
  destruct (number c r1), (number c r2); try tauto.
  - apply Qle_bool_iff.
  - split; [discriminate | contradiction].
Qed.

Lemma ge_by_total c r1 r2 : ge_by c r1 r2 = false -> ge_by c r2 r1 = true.
Proof.
  unfold ge_by. destruct (number c r1) as [x |], (number c r2) as [y |];
    try reflexivity; try discriminate.
  intros H. apply Qle_bool_iff, Qlt_le_weak, Qnot_le_lt.
  intros Hle. apply Qle_bool_iff in Hle. congruence.
Qed.

Lemma ge_by_trans c r1 r2 r3 :
  ge_by c r1 r2 = true -> ge_by c r2 r3 = true -> ge_by c r1 r3 = true.
Proof.
  unfold ge_by.
  destruct (number c r1) as [x |], (number c r2) as [y |], (number c r3) as [z |];
    try reflexivity; try discriminate.
  rewrite !Qle_bool_iff. intros H1 H2. now apply Qle_trans with y.
Qed.

Lemma StronglySorted_app {A} (R : A -> A -> Prop) l1 l2 :
  StronglySorted R l1 -> StronglySorted R l2 ->
  (forall a b, In a l1 -> In b l2 -> R a b) ->
  StronglySorted R (l1 ++ l2).
Proof.
  induction 1 as [| x l1 Hs IH Hx]; intros H2 Hcross; simpl; [assumption |].
  constructor.
  - apply IH; [assumption |]. intros a b Ha Hb. apply Hcross; [now right | assumption].
  - apply Forall_app. split; [assumption |].
    apply Forall_forall. intros b Hb. apply Hcross; [now left | assumption].
Qed.

Lemma StronglySorted_app_cross {A} (R : A -> A -> Prop) l1 l2 :
  StronglySorted R (l1 ++ l2) -> forall a b, In a l1 -> In b l2 -> R a b.
Proof.
  induction l1 as [| x l1 IH]; simpl; intros Hs a b Ha Hb; [destruct Ha |].
  inversion Hs as [| ? ? Hs' Hx]; subst.
  destruct Ha as [<- | Ha].
  - rewrite Forall_forall in Hx. apply Hx, in_or_app. now right.
  - now apply IH.
Qed.

Lemma StronglySorted_impl {A} (R R' : A -> A -> Prop) l :
  (forall a b, R a b -> R' a b) -> StronglySorted R l -> StronglySorted R' l.
Proof.
  intros Himpl. induction 1 as [| x l Hs IH Hx]; constructor; [assumption |].
  eapply Forall_impl; [| exact Hx]. intros b. apply Himpl.
Qed.

Lemma partition_perm {A} (p : A -> bool) l :
  Permutation (filter p l ++ filter (fun a => negb (p a)) l) l.
Proof.
  induction l as [| x l IH]; simpl; [constructor |].
  destruct (p x); simpl.
  - now constructor.
  - rewrite <- Permutation_middle. now constructor.
Qed.

Lemma filter_filter_implied {A} (p q : A -> bool) l :
  (forall a, p a = true -> q a = true) -> filter p (filter q l) = filter p l.
Proof.
  intros Himp. induction l as [| x l IH]; simpl; [reflexivity |].
  destruct (q x) eqn:Eq; simpl; rewrite IH; [reflexivity |].
  destruct (p x) eqn:Ep; [| reflexivity].
  apply Himp in Ep. congruence.
Qed.

Lemma filter_none {A} (p : A -> bool) l :
  (forall a, In a l -> p a = false) -> filter p l = [].
Proof.
  induction l as [| x l IH]; intros H; simpl; [reflexivity |].
  rewrite (H x) by now left. apply IH. intros a Ha. apply H. now right.
Qed.

Lemma descending_perm c rs : Permutation (descending c rs) rs.
Proof.
  unfold descending. rewrite sorted_perm. apply partition_perm.
Qed.

Lemma descending_sorted c rs : StronglySorted (ranks_above c) (descending c rs).
Proof.
  unfold descending. apply StronglySorted_app.
  - apply StronglySorted_impl with (R := fun a b => ge_by c a b = true).
    + intros a b. apply ge_by_iff.
    + apply sorted_sorted; [apply ge_by_total | apply ge_by_trans].
  - induction rs as [| r rs IH]; simpl; [constructor |].
    destruct (has_number c r) eqn:E; simpl; [assumption |].
    constructor; [assumption |].
    apply Forall_forall. intros b Hb. apply filter_In in Hb as [_ Hb].
    unfold ranks_above, has_number in *.
    destruct (number c b); [discriminate |]. now destruct (number c r).
  - intros a b _ Hb. apply filter_In in Hb as [_ Hb].
    unfold ranks_above, has_number in *.
    destruct (number c b); [discriminate |]. now destruct (number c a).
Qed.

(** Ties keep the order of the index. *)
Lemma descending_stable c q rs :
  filter (tied c q) (descending c rs) = filter (tied c q) rs.
Proof.
  assert (Hnum : forall r, tied c q r = true -> has_number c r = true).
  { intros r. unfold tied, has_number. now destruct (number c r). }
  unfold descending. rewrite filter_app.
  rewrite (filter_none (tied c q) (filter _ rs)).
  - rewrite app_nil_r, sorted_stable.
    + now apply filter_filter_implied.
    + intros x y. unfold tied, ge_by.
      destruct (number c x) as [a |], (number c y) as [b |]; try discriminate.
      rewrite !Qeq_bool_iff, Qle_bool_iff. intros -> ->. apply Qle_refl.
  - intros r Hr. apply filter_In in Hr as [_ Hr].
    destruct (tied c q r) eqn:E; [| reflexivity].
    apply Hnum in E. rewrite E in Hr. discriminate.
Qed.

Lemma nlargest_rows n c df :
  has_column df c = true -> numeric_column df c = true ->
  nlargest n c df
  = Ok {| columns := columns df; rows := firstn (Z.to_nat n) (descending c (rows df)) |}.
Proof.
  intros Hc Hn. unfold nlargest. rewrite Hc, Hn; simpl.
  destruct (Z.leb_spec n 0) as [H | H]; [| reflexivity].
  replace (Z.to_nat n) with 0%nat by lia. reflexivity.
Qed.

(** ** Folder-name search *)

(** [substring_ci] is the substring relation on the lowered strings. *)
Lemma prefix_ci_spec q : forall s,
  prefix_ci q s = true <-> exists post, lower_string s = (lower_string q ++ post)%string.
Proof.
  induction q as [| a q IH]; intros s; simpl.
  - split; [intros _; now exists (lower_string s) | reflexivity].
  - destruct s as [| b s]; simpl.
    + split; [discriminate | intros [post H]; discriminate].
    + rewrite andb_true_iff, Ascii.eqb_eq, IH. split.
      * intros [-> [post ->]]. now exists post.
      * intros [post H]. injection H as -> H. split; [reflexivity | now exists post].
Qed.

Lemma substring_ci_spec q : forall s,
  substring_ci q s = true
  <-> exists pre post, lower_string s = (pre ++ lower_string q ++ post)%string.
Proof.
  induction s as [| b s IH]; simpl.
  - rewrite orb_false_r, prefix_ci_spec. split.
    + intros [post H]. now exists "", post.
    + intros (pre & post & H). destruct pre; [now exists post | discriminate].
  - rewrite orb_true_iff, prefix_ci_spec, IH. split.
    + intros [[post H] | (pre & post & H)].
      * now exists "", post.
      * exists (String (lower b) pre), post. simpl. now rewrite H.
    + intros (pre & post & H). destruct pre as [| c pre]; simpl in H.
      * left. now exists post.
      * right. injection H as _ H. now exists pre, post.
Qed.

Lemma parse_literal q :
  literal q = true -> parse q = Some (map Char (list_ascii_of_string q)).
Proof.
  unfold literal. induction q as [| c q IH]; simpl; [reflexivity |].
  rewrite !andb_true_iff, !negb_true_iff. intros [[Hs Hd] Hq].
  now rewrite Hs, Hd, (IH Hq).
Qed.

Lemma match_here_literal q : forall s,
  match_here (map Char (list_ascii_of_string q)) s = prefix_ci q s.
Proof.
  induction q as [| a q IH]; intros s; simpl; [reflexivity |].
  destruct s as [| b s]; [reflexivity |]. now rewrite IH.
Qed.

Lemma search_literal q : forall s,
  search (map Char (list_ascii_of_string q)) s = substring_ci q s.
Proof.
  induction s as [| b s IH]; simpl; rewrite match_here_literal; [reflexivity |].
  now rewrite IH.
Qed.

Section Search.
Variable to_csv : DataFrame -> file.
Variable re_search : string -> string -> result bool.

(** On ASCII text a literal query is searched for as a substring, whatever
    the rest of the engine does. *)
Lemma contains_literal q s :
  ascii_only q = true -> literal q = true -> ascii_only s = true ->
  contains re_search q s = Ok (substring_ci q s).
Proof.
  intros Hq Hlit Hs. unfold contains.
  now rewrite Hq, Hs, (parse_literal _ Hlit), search_literal.
Qed.

Lemma matching_literal q rs :
  ascii_only q = true -> literal q = true ->
  Forall (fun r => exists s, get "folder_name" r = Some (JStr s) /\ ascii_only s = true) rs ->
  matching re_search "folder_name" q rs = Ok (filter (hit q) rs).
Proof.
  intros Hq Hlit. induction 1 as [| r rs (s & Hget & Hs) _ IH]; [reflexivity |].
  cbn [matching filter]. unfold hit at 1, cell. rewrite Hget.
  rewrite (contains_literal _ _ Hq Hlit Hs), IH. cbn [rbind].
  now destruct (substring_ci q s).
Qed.

(** C9, as the code has it: the query is a pattern for Python's [re], applied
    without regard to case.  For a query of ASCII characters none of which
    has a meaning in a pattern, on an index that is not empty and whose folder
    names are ASCII, this is the case-insensitive substring match: one match
    prints [cd] and the [full_path] of the record, several matches print the
    [folder_name], [model] and [dataset] of all of them when the index has
    the columns [model] and [dataset], no match is reported. *)
Theorem folder_search_literal_query :
  forall partial_name w df w1,
    create_experiment_index to_csv default_organizer w = (Ok df, w1) ->
    rows df <> [] ->
    ascii_only partial_name = true ->
    literal partial_name = true ->
    Forall (fun r => forall s, get "folder_name" r = Some (JStr s) -> ascii_only s = true)
           (rows df) ->
    match filter (hit partial_name) (rows df) with
    | [] =>
        quick_cd to_csv re_search partial_name w
        = (Ok tt, printing w1 [Print [Lit ("No experiments found matching '"
                                            ++ partial_name ++ "'")]])
    | [only] =>
        quick_cd to_csv re_search partial_name w
        = (Ok tt, printing w1 [Print [Lit "cd "; Val (cell only "full_path")]])
        /\ exists path, cell only "full_path" = JStr path
    | first :: second :: others =>
        has_column df "model" = true ->
        has_column df "dataset" = true ->
        quick_cd to_csv re_search partial_name w
        = (Ok tt, printing w1
                    [Print [Lit "Multiple matches found:"];
                     PrintTable ["folder_name"; "model"; "dataset"]
                       (map (fun r => map (cell r) ["folder_name"; "model"; "dataset"])
                            (first :: second :: others))])
    end.
Proof.
  intros partial_name w df w1 Hbuild Hrows Hq Hlit Hascii.
  destruct (create_experiment_index_inv _ _ _ _ _ Hbuild) as (recs & Hrecs & Hdf).
  assert (Hderived : forall r, In r (rows df) -> exists name path, derived name path r).
  { subst df. intros r Hr. now apply (record_derived _ _ _ _ Hrecs). }
  assert (Hcols : has_column df "folder_name" = true /\ has_column df "full_path" = true).
  { destruct (rows df) as [| r rs] eqn:E; [contradiction |].
    destruct (Hderived r (or_introl eq_refl)) as (name & path & Hn & Hp).
    subst df. simpl in E. subst recs.
    split; eapply column_of_record; eauto; now left. }
  destruct Hcols as [Hfolder Hpath].
  assert (Hnames : Forall (fun r => exists s, get "folder_name" r = Some (JStr s)
                                              /\ ascii_only s = true) (rows df)).
  { rewrite Forall_forall in *. intros r Hr.
    destruct (Hderived r Hr) as (name & path & Hn & _).
    exists name. split; [exact Hn | now apply (Hascii r Hr)]. }
  assert (Hrun : quick_cd to_csv re_search partial_name w
                 = match filter (hit partial_name) (rows df) with
                   | [] => (Ok tt, printing w1
                              [Print [Lit ("No experiments found matching '"
                                           ++ partial_name ++ "'")]])
                   | [only] => (Ok tt, printing w1
                                  [Print [Lit "cd "; Val (cell only "full_path")]])
                   | first :: second :: others =>
                       bind (lift (select ["folder_name"; "model"; "dataset"]
                                     {| columns := columns df;
                                        rows := first :: second :: others |}))
                            print_table
                            (printing w1 [Print [Lit "Multiple matches found:"]])
                   end).
  { unfold quick_cd, bind. rewrite Hbuild. unfold lift, str_contains.
    rewrite Hfolder, (matching_literal _ _ Hq Hlit Hnames). cbn [rbind rows].
    destruct (filter (hit partial_name) (rows df)) as [| first [| second others]];
      try reflexivity.
    unfold at_, has_column in *. cbn [columns]. rewrite Hpath. reflexivity. }
  rewrite Hrun.
  destruct (filter (hit partial_name) (rows df)) as [| first [| second others]] eqn:E.
  - reflexivity.
  - split; [reflexivity |].
    assert (Hin : In first (rows df)).
    { apply (proj1 (filter_In (hit partial_name) first (rows df))). rewrite E. now left. }
    destruct (Hderived first Hin) as (name & path & _ & Hp).
    exists path. unfold cell. now rewrite Hp.
  - intros Hmodel Hdata. unfold bind, lift, select, has_column in *. cbn [columns filter].
    rewrite Hfolder, Hmodel, Hdata. cbn [negb].
    unfold print_table, printing; simpl. now rewrite <- app_assoc.
Qed.
End Search.

Lemma folder_search_literal_query_witness :
  hit "RUN_A" [("folder_name", JStr "run_a")] = true
  /\ stdout (snd (quick_cd csv_of no_re "RUN_A" two_runs))
     = [Print [Lit "Created experiment index with 2 experiments"];
        Print [Lit "cd "; Val (JStr "outputs/run_a")]].
Proof.
  split; [reflexivity |].
  destruct (create_experiment_index csv_of default_organizer two_runs)
    as [[df | e] w1] eqn:E; [| vm_compute in E; discriminate].
  pose proof (folder_search_literal_query csv_of no_re "RUN_A" two_runs df w1 E) as H.
  vm_compute in E. injection E as Hdf Hw1.
  assert (Hhit : exists only, filter (hit "RUN_A") (rows df) = [only]
                              /\ cell only "full_path" = JStr "outputs/run_a").
  { rewrite <- Hdf. eexists. split; reflexivity. }
  destruct Hhit as (only & Hhit & Hpath).
  rewrite Hhit in H. destruct H as [Hrun _].
  - rewrite <- Hdf. discriminate.
  - reflexivity.
  - reflexivity.
  - rewrite <- Hdf. repeat constructor; intros s [= <-]; reflexivity.
  - rewrite Hrun, Hpath, <- Hw1. reflexivity.
Defined.

(** C9, counterexample: the query [a.c] does not occur in the folder name
    [abc], yet the search finds that record and prints its [cd] command: the
    dot of the query matches any character. *)
Lemma folder_search_reads_pattern :
  substring_ci "a.c" "abc" = false
  /\ stdout (snd (main csv_of no_re ["experiment_tracker.py"; "cd"; "a.c"] abc_run))
     = [Print [Lit "Created experiment index with 1 experiments"];
        Print [Lit "cd "; Val (JStr "outputs/abc")]].
Proof. split; vm_compute; reflexivity. Qed.

(** On an index without records the table has no column [folder_name], and
    the search ends in a [KeyError] instead of reporting that nothing
    matches. *)
Lemma folder_search_empty_index :
  fst (main csv_of no_re ["experiment_tracker.py"; "cd"; "abc"] fresh_root)
  = Raise (KeyError "folder_name").
Proof. vm_compute. reflexivity. Qed.

(** * Further properties of the code *)

(** ** The index builder: counting, merging, failing, writing *)

Lemma get_absent k (d : dict) : ~ In k (keys d) -> get k d = None.
Proof.
  induction d as [| [k' v'] d IH]; simpl; [reflexivity |].
  intros Hn. destruct (String.eqb k k') eqn:E.
  - apply String.eqb_eq in E. subst k'. exfalso. apply Hn. now left.
  - apply IH. intros Hin. apply Hn. now right.
Qed.

(** [d.update(other)] for a dictionary [other] without repeated key. *)
Lemma get_update k other :
  NoDup (keys other) ->
  forall d,
    get k (update d other)
    = match get k other with Some v => Some v | None => get k d end.
Proof.
  unfold update. induction other as [| [k' v'] other IH]; intros Hnd d; simpl.
  - reflexivity.
  - inversion Hnd as [| ? ? Hk Hnd']; subst. rewrite (IH Hnd').
    destruct (String.eqb k k') eqn:E.
    + apply String.eqb_eq in E. subst k'.
      rewrite (get_absent _ _ Hk). apply get_setitem_same.
    + now rewrite get_setitem_other.
Qed.

(** X2: in the record of a directory the two derived fields come last and
    win; on every other key the results document overrides the info
    document, and without a results document the record has the fields of
    the info document. *)
Theorem results_override_info :
  forall name path entries info,
    open_json entries "experiment_info.json" = Ok info ->
    (exists_ "results.json" entries = false ->
     exists r,
       _extract_experiment_info name path entries = Ok r
       /\ derived name path r
       /\ forall k, String.eqb k "folder_name" = false ->
                    String.eqb k "full_path" = false ->
                    get k r = get k info)
    /\ (forall results,
           open_json entries "results.json" = Ok results ->
           NoDup (keys results) ->
           exists r,
             _extract_experiment_info name path entries = Ok r
             /\ derived name path r
             /\ forall k, String.eqb k "folder_name" = false ->
                          String.eqb k "full_path" = false ->
                          get k r = match get k results with
                                    | Some v => Some v
                                    | None => get k info
                                    end).
Proof.
  intros name path entries info Hinfo. split.
  - intros Hno. unfold _extract_experiment_info. rewrite Hinfo, Hno. cbn [rbind].
    eexists. split; [reflexivity |]. split.
    + split; [| apply get_setitem_same].
      rewrite get_setitem_other by reflexivity. apply get_setitem_same.
    + intros k H1 H2. now rewrite !get_setitem_other.
  - intros results Hres Hnd.
    assert (Hex : exists_ "results.json" entries = true).
    { unfold open_json in Hres. unfold exists_.
      now destruct (lookup "results.json" entries). }
    unfold _extract_experiment_info. rewrite Hinfo, Hex. cbn [rbind].
    rewrite Hres. cbn [rbind].
    eexists. split; [reflexivity |]. split.
    + split; [| apply get_setitem_same].
      rewrite get_setitem_other by reflexivity. apply get_setitem_same.
    + intros k H1 H2. rewrite !get_setitem_other by assumption.
      now apply get_update.
Qed.

Lemma results_override_info_witness :
  exists r,
    _extract_experiment_info "expA" "outputs/expA"
      (experiment_files [("model", JStr "r18"); ("best_accuracy", JNum 0.25)]
                        [("best_accuracy", JNum 0.875); ("full_path", JStr "elsewhere")])
    = Ok r
    /\ get "best_accuracy" r = Some (JNum 0.875)
    /\ get "model" r = Some (JStr "r18")
    /\ get "full_path" r = Some (JStr "outputs/expA").
Proof.
  destruct (results_override_info "expA" "outputs/expA"
              (experiment_files [("model", JStr "r18"); ("best_accuracy", JNum 0.25)]
                                [("best_accuracy", JNum 0.875);
                                 ("full_path", JStr "elsewhere")])
              [("model", JStr "r18"); ("best_accuracy", JNum 0.25)] eq_refl)
    as [_ H].
  destruct (H [("best_accuracy", JNum 0.875); ("full_path", JStr "elsewhere")] eq_refl)
    as (r & Hr & [_ Hpath] & Hk).
  - simpl. repeat constructor; simpl; intuition discriminate.
  - exists r. split; [exact Hr |].
    rewrite (Hk "best_accuracy"), (Hk "model") by reflexivity.
    repeat split; try reflexivity. exact Hpath.
Defined.

Lemma collect_raises {A B} (f : A -> result (list B)) l a e :
  In a l -> f a = Raise e -> exists e', collect f l = Raise e'.
Proof.
  induction l as [| x l IH]; intros Hin Hf; [destruct Hin |].
  cbn [collect]. destruct Hin as [-> | Hin].
  - rewrite Hf. now exists e.
  - destruct (f x) as [bs | e0]; [| now exists e0].
    destruct (IH Hin Hf) as [e' ->]. now exists e'.
Qed.

Lemma lookup_replace_same name x d : lookup name (replace name x d) = Some x.
Proof.
  induction d as [| [n y] d IH]; simpl.
  - now rewrite String.eqb_refl.
  - destruct (String.eqb name n) eqn:E; simpl; now rewrite E.
Qed.

Lemma lookup_replace_other name x n d :
  String.eqb n name = false -> lookup n (replace name x d) = lookup n d.
Proof.
  intros Hne. induction d as [| [k y] d IH]; simpl.
  - now rewrite Hne.
  - destruct (String.eqb name k) eqn:E; simpl.
    + apply String.eqb_eq in E. subst k. now rewrite Hne.
    + now rewrite IH.
Qed.

Lemma replace_replace name x d : replace name x (replace name x d) = replace name x d.
Proof.
  induction d as [| [n y] d IH]; simpl.
  - now rewrite String.eqb_refl.
  - destruct (String.eqb name n) eqn:E; simpl; rewrite E; [reflexivity | now rewrite IH].
Qed.

(** Storing a file under a name that is not a directory does not change what
    the builder finds: files contribute no record. *)
Lemma experiments_replace base name f d :
  (forall mtime entries, lookup name d <> Some (Dir mtime entries)) ->
  experiments base (replace name (File f) d) = experiments base d.
Proof.
  unfold experiments. induction d as [| [n y] d IH]; intros Hnd.
  - reflexivity.
  - simpl in Hnd. cbn [replace]. destruct (String.eqb name n) eqn:E.
    + destruct y as [g | mtime entries]; [reflexivity |].
      exfalso. now apply (Hnd mtime entries).
    + cbn [collect]. now rewrite IH.
Qed.

Section BuildEffects.
Variable to_csv : DataFrame -> file.

(** X4: a successful build stores the table under [experiment_index.csv],
    replacing what was there, leaves every other entry of the base directory
    as it was, and prints one line with the number of rows of the table. *)
Theorem build_writes_only_index :
  forall self w df w1,
    create_experiment_index to_csv self w = (Ok df, w1) ->
    lookup "experiment_index.csv" (files w1) = Some (File (to_csv df))
    /\ (forall n, String.eqb n "experiment_index.csv" = false ->
                  lookup n (files w1) = lookup n (files w))
    /\ stdout w1 = stdout w ++ [created_line (List.length (rows df))]
    /\ clock w1 = clock w.
Proof.
  intros self w df w1. unfold create_experiment_index, bind, listdir, lift, store, print, ret.
  destruct (experiments (base_dir self) (files w)) as [recs | e]; [| discriminate].
  unfold write.
  destruct (lookup "experiment_index.csv" (files w)) as [[g | mtime entries] |];
    try discriminate; intros [= <- <-]; cbn [files stdout clock rows pd_DataFrame];
    (split; [apply lookup_replace_same |]);
    (split; [intros n Hn; now apply lookup_replace_other |]);
    split; reflexivity.
Qed.

(** X5: building again on the result of a build gives the same table and
    the same directory tree; the second run only adds its line to the
    output. *)
Theorem build_idempotent :
  forall self w df w1,
    create_experiment_index to_csv self w = (Ok df, w1) ->
    create_experiment_index to_csv self w1
    = (Ok df, printing w1 [created_line (List.length (rows df))]).
Proof.
  intros self w df w1. unfold create_experiment_index, bind, listdir, lift, store, print, ret.
  destruct (experiments (base_dir self) (files w)) as [recs | e] eqn:Erecs; [| discriminate].
  unfold write.
  assert (Hagain : forall d,
             (forall mtime entries,
                 lookup "experiment_index.csv" (files w) <> Some (Dir mtime entries)) ->
             d = replace "experiment_index.csv" (File (to_csv (pd_DataFrame recs))) (files w) ->
             experiments (base_dir self) d = Ok recs
             /\ lookup "experiment_index.csv" d = Some (File (to_csv (pd_DataFrame recs)))
             /\ replace "experiment_index.csv" (File (to_csv (pd_DataFrame recs))) d = d).
  { intros d Hnd ->. rewrite experiments_replace by exact Hnd.
    split; [exact Erecs |]. split; [apply lookup_replace_same | apply replace_replace]. }
  destruct (lookup "experiment_index.csv" (files w)) as [[g | mtime entries] |] eqn:El;
    try discriminate; intros [= <- <-]; cbn [files stdout clock];
    destruct (Hagain _ ltac:(intros; discriminate) eq_refl) as (-> & -> & ->);
    reflexivity.
Qed.
End BuildEffects.

Lemma build_writes_only_index_witness :
  lookup "experiment_index.csv" (files indexed_world) = Some (File (csv_of indexed_frame))
  /\ lookup "expA" (files indexed_world) = lookup "expA" spec_example
  /\ stdout indexed_world = [created_line 3].
Proof.
  assert (E : create_experiment_index csv_of default_organizer spec_world
              = (Ok indexed_frame, indexed_world)) by reflexivity.
  destruct (build_writes_only_index csv_of default_organizer spec_world
              indexed_frame indexed_world E) as (Hidx & Hother & Hout & _).
  split; [exact Hidx |]. split; [now apply Hother |]. exact Hout.
Defined.

Lemma build_idempotent_witness :
  create_experiment_index csv_of default_organizer indexed_world
  = (Ok indexed_frame, printing indexed_world [created_line 3]).
Proof.
  apply (build_idempotent csv_of default_organizer spec_world indexed_frame indexed_world).
  reflexivity.
Defined.

(** ** The queries on the persisted index *)

Lemma read_index_eq w :
  read_index w = (pd_read_csv (files w) "experiment_index.csv", w).
Proof. reflexivity. Qed.

Lemma select_available cols df :
  select (available cols df) df = Ok {| columns := available cols df; rows := rows df |}.
Proof.
  unfold select, available.
  replace (filter (fun c => negb (has_column df c)) (filter (has_column df) cols))
    with (@nil string); [reflexivity |].
  induction cols as [| c cols IH]; simpl; [reflexivity |].
  destruct (has_column df c) eqn:E; simpl; [now rewrite E |]. exact IH.
Qed.

Lemma filter_filter_and {A} (p q : A -> bool) l :
  filter q (filter p l) = filter (fun a => p a && q a) l.
Proof.
  induction l as [| x l IH]; simpl; [reflexivity |].
  destruct (p x); simpl; [destruct (q x) |]; now rewrite IH.
Qed.

Lemma filter_all {A} (l : list A) : filter (fun _ => true) l = l.
Proof. induction l as [| x l IH]; simpl; [reflexivity | now rewrite IH]. Qed.

(** What the loop over the filters of [find_experiments] leaves. *)
Lemma apply_filters filters :
  forall df,
    let df' := fold_left (fun df kv =>
                            if has_column df (fst kv)
                            then where_ (fun r => py_eqb (cell r (fst kv)) (snd kv)) df
                            else df) filters df in
    columns df' = columns df /\ rows df' = filter (passes df filters) (rows df).
Proof.
  induction filters as [| [k v] filters IH]; intros df; cbn [fold_left].
  - split; [reflexivity |]. unfold passes; simpl. now rewrite filter_all.
  - cbn [fst snd].
    assert (Hp : forall df0, columns df0 = columns df ->
                             forall r, passes df0 filters r = passes df filters r).
    { intros df0 Hc r. unfold passes, has_column. now rewrite Hc. }
    destruct (has_column df k) eqn:Hk.
    + destruct (IH (where_ (fun r => py_eqb (cell r k) v) df)) as [Hc Hr].
      split; [exact Hc |]. rewrite Hr. cbn [where_ rows].
      rewrite filter_filter_and. apply filter_ext. intros r.
      unfold passes at 2. cbn [forallb fst snd]. rewrite Hk. cbn [negb orb].
      f_equal; try now apply Hp.
    + destruct (IH df) as [Hc Hr]. split; [exact Hc |]. rewrite Hr.
      apply filter_ext. intros r. unfold passes at 2. cbn [forallb fst snd].
      now rewrite Hk.
Qed.

Lemma read_only_ret {A} (a : A) : read_only (ret a).
Proof. intros w; split; reflexivity. Qed.

Lemma read_only_raise {A} e : read_only (@raise A e).
Proof. intros w; split; reflexivity. Qed.

Lemma read_only_lift {A} (r : result A) : read_only (lift r).
Proof. intros w; split; reflexivity. Qed.

Lemma read_only_print line : read_only (print line).
Proof. intros w; split; reflexivity. Qed.

Lemma read_only_print_table df : read_only (print_table df).
Proof. intros w; split; reflexivity. Qed.

Lemma read_only_read_index : read_only read_index.
Proof. intros w; split; reflexivity. Qed.

Lemma read_only_bind {A B} (m : M A) (k : A -> M B) :
  read_only m -> (forall a, read_only (k a)) -> read_only (bind m k).
Proof.
  intros Hm Hk w. unfold bind. destruct (Hm w) as [Hf Hc].
  destruct (m w) as [[a | e] w']; simpl in *.
  - destruct (Hk a w') as [Hf' Hc']. split; congruence.
  - now split.
Qed.

Lemma read_only_print_sweeps df sweeps : read_only (print_sweeps df sweeps).
Proof.
  induction sweeps as [| sweep sweeps IH]; cbn [print_sweeps].
  - apply read_only_ret.
  - apply read_only_bind; [apply read_only_print | intros _; exact IH].
Qed.

Ltac read_only_step :=
  first [ apply read_only_ret | apply read_only_raise | apply read_only_lift
        | apply read_only_print | apply read_only_print_table
        | apply read_only_read_index | apply read_only_print_sweeps
        | apply read_only_bind; [| intros ?]
        | match goal with
          | |- read_only (if ?b then _ else _) => destruct b
          | |- read_only (match ?x with _ => _ end) => destruct x
          end ].

(** X7: the three operations that query the persisted index never create,
    change or delete anything in the base directory, whether they return or
    raise. *)
Theorem queries_are_read_only :
  forall self filters sweep_name,
    read_only (find_experiments self filters)
    /\ read_only (list_sweeps self)
    /\ read_only (analyze_sweep self sweep_name).
Proof.
  intros self filters sweep_name. split; [| split].
  - unfold find_experiments. repeat read_only_step.
  - unfold list_sweeps. repeat read_only_step.
  - unfold analyze_sweep. repeat read_only_step.
Qed.


Lemma has_column_nonempty df c : has_column df c = true -> columns df <> [].
Proof. unfold has_column. destruct (columns df); [discriminate | discriminate]. Qed.

(** X9: a sweep name that no row has, and an index without the column
    [sweep_parent], are reported on one line each; [analyze_sweep] then
    returns an empty table and does not raise. *)
Theorem analyze_sweep_without_rows :
  forall self sweep_name w df,
    pd_read_csv (files w) "experiment_index.csv" = Ok df ->
    (has_column df "sweep_parent" = false ->
     analyze_sweep self sweep_name w
     = (Ok (pd_DataFrame []),
        printing w [Print [Lit "No parameter sweep data found in experiment index"]]))
    /\ (has_column df "sweep_parent" = true ->
        filter (in_sweep sweep_name) (rows df) = [] ->
        analyze_sweep self sweep_name w
        = (Ok (pd_DataFrame []),
           printing w [Print [Lit ("No sweep results found for: " ++ sweep_name)]])).
Proof.
  intros self sweep_name w df Hread. split.
  - intros Hno. unfold analyze_sweep, bind. now rewrite read_index_eq, Hread, Hno.
  - intros Hcol Hnone. unfold analyze_sweep, bind. rewrite read_index_eq, Hread, Hcol.
    change (where_ (fun r => py_eqb (cell r "sweep_parent") (JStr sweep_name)) df)
      with (where_ (in_sweep sweep_name) df).
    assert (He : empty (where_ (in_sweep sweep_name) df) = true).
    { unfold empty. cbn [where_ columns rows]. rewrite Hnone. now destruct (columns df). }
    now rewrite He.
Qed.

Lemma analyze_sweep_without_rows_witness :
  analyze_sweep default_organizer "sweepZ" indexed_world
  = (Ok (pd_DataFrame []),
     printing indexed_world [Print [Lit "No sweep results found for: sweepZ"]]).
Proof.
  destruct (analyze_sweep_without_rows default_organizer "sweepZ" indexed_world indexed_frame)
    as [_ H]; [reflexivity |].
  apply H; reflexivity.
Defined.

Lemma print_sweeps_out df sweeps :
  forall w, print_sweeps df sweeps w = (Ok tt, printing w (map (sweep_line df) sweeps)).
Proof.
  induction sweeps as [| sweep sweeps IH]; intros w; cbn [print_sweeps map].
  - unfold ret, printing. rewrite app_nil_r. now destruct w.
  - unfold bind, print. rewrite IH. unfold printing; cbn [files stdout clock].
    now rewrite <- app_assoc.
Qed.

Lemma seen_text s seen :
  existsb (py_eqb (JStr s)) seen = true <-> In (JStr s) seen.
Proof.
  rewrite existsb_exists. split.
  - intros (x & Hx & Heq). unfold py_eqb in Heq. cbn [as_number] in Heq.
    destruct x; try discriminate. apply String.eqb_eq in Heq. now subst.
  - intros Hin. exists (JStr s). split; [exact Hin |].
    unfold py_eqb; simpl. apply String.eqb_refl.
Qed.

(** [unique] on strings: no repetition, nothing lost, nothing added. *)
Lemma unique_loop l :
  Forall (fun v => exists s, v = JStr s) l ->
  forall seen,
    NoDup seen ->
    let out := fold_left (fun seen v => if existsb (py_eqb v) seen then seen else seen ++ [v])
                         l seen in
    NoDup out /\ forall v, In v out <-> In v seen \/ In v l.
Proof.
  induction 1 as [| v l [s ->] _ IH]; intros seen Hnd; cbn [fold_left].
  - split; [exact Hnd |]. intros v. simpl. tauto.
  - destruct (existsb (py_eqb (JStr s)) seen) eqn:E.
    + destruct (IH seen Hnd) as [Hn Hin]. split; [exact Hn |].
      intros v. cbv zeta in Hin. rewrite Hin. simpl.
      apply seen_text in E. split; [tauto |]. intros [H | [<- | H]]; auto.
    + assert (Hnew : ~ In (JStr s) seen).
      { intros Hin. apply seen_text in Hin. congruence. }
      assert (Hnd' : NoDup (seen ++ [JStr s])).
      { apply (Permutation_NoDup (Permutation_cons_append seen (JStr s))).
        now constructor. }
      destruct (IH _ Hnd') as [Hn Hin]. split; [exact Hn |].
      intros v. cbv zeta in Hin. rewrite Hin, in_app_iff. simpl. tauto.
Qed.

(** X10: on an index whose [sweep_parent] cells are strings or missing,
    [list_sweeps] returns every sweep name of the column exactly once and
    nothing else, and prints one line per sweep with the number of rows that
    carry the name. *)
Theorem list_sweeps_distinct :
  forall self w df,
    pd_read_csv (files w) "experiment_index.csv" = Ok df ->
    has_column df "sweep_parent" = true ->
    Forall (fun r => text_or_missing (cell r "sweep_parent")) (rows df) ->
    exists sweeps,
      list_sweeps self w
      = (Ok sweeps,
         printing w (Print [Lit ("Found " ++ str_nat (List.length sweeps)
                                          ++ " parameter sweeps:")]
                     :: map (sweep_line df) sweeps))
      /\ NoDup sweeps
      /\ forall v, In v sweeps
                   <-> missing_cell v = false
                       /\ exists r, In r (rows df) /\ cell r "sweep_parent" = v.
Proof.
  intros self w df Hread Hcol Htext.
  set (vs := map (fun r => cell r "sweep_parent") (rows df)).
  exists (unique vs). split; [| clear Hread Hcol].
  - unfold list_sweeps, bind. rewrite read_index_eq, Hread, Hcol. fold vs.
    unfold print. rewrite print_sweeps_out. unfold ret, printing.
    cbn [files stdout clock]. now rewrite <- app_assoc.
  - assert (Hstr : Forall (fun v => exists s, v = JStr s)
                          (filter (fun v => negb (missing_cell v)) vs)).
    { apply Forall_forall. intros v Hv. apply filter_In in Hv as [Hv Hm].
      unfold vs in Hv. apply in_map_iff in Hv as (r & <- & Hr).
      rewrite Forall_forall in Htext. destruct (Htext r Hr) as [Hs | Hmiss]; [exact Hs |].
      rewrite Hmiss in Hm. discriminate. }
    destruct (unique_loop _ Hstr [] (NoDup_nil _)) as [Hnd Hin].
    split; [exact Hnd |]. intros v. unfold unique. cbv zeta in Hin. rewrite Hin.
    rewrite filter_In. unfold vs. rewrite in_map_iff, negb_true_iff.
    split.
    + intros [[] | [(r & Hc & Hr) Hm]]. split; [exact Hm |]. now exists r.
    + intros [Hm (r & Hr & Hc)]. right. split; [now exists r | exact Hm].
Qed.

Lemma list_sweeps_distinct_witness :
  exists sweeps,
    list_sweeps default_organizer indexed_world
    = (Ok sweeps,
       printing indexed_world
         (Print [Lit ("Found " ++ str_nat (List.length sweeps) ++ " parameter sweeps:")]
          :: map (sweep_line indexed_frame) sweeps))
    /\ NoDup sweeps
    /\ In (JStr "sweepB") sweeps.
Proof.
  destruct (list_sweeps_distinct default_organizer indexed_world indexed_frame)
    as (sweeps & Hrun & Hnd & Hin).
  - reflexivity.
  - reflexivity.
  - apply Forall_forall. intros r Hr. vm_compute in Hr.
    destruct Hr as [<- | [<- | [<- | []]]];
      [right | left; eexists | left; eexists]; reflexivity.
  - exists sweeps. split; [exact Hrun |]. split; [exact Hnd |].
    apply Hin. split; [reflexivity |].
    exists (nth 1 (rows indexed_frame) []). split; [right; left |]; reflexivity.
Defined.

(** ** The commands that rebuild the index *)

Lemma forallb_false_In {A} (p : A -> bool) l a :
  In a l -> p a = false -> forallb p l = false.
Proof.
  induction l as [| x l IH]; intros Hin Hp; [destruct Hin |].
  simpl. destruct Hin as [-> | Hin]; [now rewrite Hp |].
  rewrite (IH Hin Hp). apply andb_false_r.
Qed.

Section Commands.
Variable to_csv : DataFrame -> file.
Variable re_search : string -> string -> result bool.

(** X11: on a base directory without any experiment the build succeeds with
    an empty table, and then: [list_experiments] prints that there are no
    experiments, [find_best_experiments] prints that the metric is not
    found, and [quick_cd] raises [KeyError], the table having no column
    [folder_name]. *)
Theorem empty_index_commands :
  forall metric top_n partial_name w df w1,
    create_experiment_index to_csv default_organizer w = (Ok df, w1) ->
    rows df = [] ->
    list_experiments to_csv w = (Ok tt, printing w1 [Print [Lit "No experiments found"]])
    /\ find_best_experiments to_csv metric top_n w
       = (Ok tt, printing w1 [Print [Lit ("Metric '" ++ metric ++ "' not found")]])
    /\ quick_cd to_csv re_search partial_name w = (Raise (KeyError "folder_name"), w1).
Proof.
  intros metric top_n partial_name w df w1 Hbuild Hrows.
  destruct (create_experiment_index_inv _ _ _ _ _ Hbuild) as (recs & _ & ->).
  cbn [rows pd_DataFrame] in Hrows. subst recs.
  unfold list_experiments, find_best_experiments, quick_cd, bind.
  rewrite Hbuild. repeat split; reflexivity.
Qed.

(** X12: once the index is built with at least one record,
    [list_experiments] prints one table row per record, in the order of the
    index, under the display columns the index has; it does not raise,
    whatever columns are missing. *)
Theorem list_experiments_prints_all :
  forall w df w1,
    create_experiment_index to_csv default_organizer w = (Ok df, w1) ->
    rows df <> [] ->
    list_experiments to_csv w
    = (Ok tt,
       printing w1
         [PrintTable (available list_columns df)
                     (map (fun r => map (cell r) (available list_columns df)) (rows df))])
    /\ In "folder_name" (available list_columns df).
Proof.
  intros w df w1 Hbuild Hrows.
  assert (Hfolder : has_column df "folder_name" = true).
  { destruct (create_experiment_index_inv _ _ _ _ _ Hbuild) as (recs & Hrecs & ->).
    cbn [rows pd_DataFrame] in Hrows. destruct recs as [| r recs]; [contradiction |].
    destruct (record_derived _ _ _ r Hrecs (or_introl eq_refl)) as (name & path & Hn & _).
    eapply column_of_record; [now left | exact Hn]. }
  split.
  - unfold list_experiments, bind. rewrite Hbuild.
    assert (He : empty df = false).
    { unfold empty. pose proof (has_column_nonempty _ _ Hfolder).
      destruct (columns df); [contradiction |]. destruct (rows df); [contradiction |].
      reflexivity. }
    rewrite He. cbn [negb]. unfold lift.
    change ["folder_name"; "model"; "dataset"; "lr"; "best_accuracy"; "timestamp"]
      with list_columns.
    now rewrite select_available.
  - unfold available, list_columns. cbn [filter]. rewrite Hfolder. now left.
Qed.

(** X13: ranking by a column that holds a string in some record (the model
    name, the folder name) is refused: [find_best_experiments] raises
    [TypeError] after the index is written and before it prints anything
    about the ranking. *)
Theorem find_best_rejects_text_metric :
  forall metric top_n w df w1 r s,
    create_experiment_index to_csv default_organizer w = (Ok df, w1) ->
    In r (rows df) ->
    get metric r = Some (JStr s) ->
    find_best_experiments to_csv metric top_n w = (Raise TypeError, w1).
Proof.
  intros metric top_n w df w1 r s Hbuild Hr Hget.
  assert (Hcol : has_column df metric = true).
  { destruct (create_experiment_index_inv _ _ _ _ _ Hbuild) as (recs & _ & ->).
    eapply column_of_record; [exact Hr | exact Hget]. }
  assert (Hnum : numeric_column df metric = false).
  { unfold numeric_column.
    rewrite (forallb_false_In (fun r => numeric_cell (cell r metric)) _ r Hr),
            (forallb_false_In (fun r => bool_cell (cell r metric)) _ r Hr);
      [reflexivity | |]; unfold cell; now rewrite Hget. }
  unfold find_best_experiments, bind. rewrite Hbuild, Hcol.
  unfold lift, nlargest. now rewrite Hcol, Hnum.
Qed.
End Commands.

Lemma empty_index_commands_witness :
  stdout (snd (list_experiments csv_of fresh_root))
  = [created_line 0; Print [Lit "No experiments found"]]
  /\ stdout (snd (find_best_experiments csv_of "best_accuracy" 5 fresh_root))
     = [created_line 0; Print [Lit "Metric 'best_accuracy' not found"]]
  /\ fst (quick_cd csv_of no_re "abc" fresh_root) = Raise (KeyError "folder_name").
Proof.
  destruct (create_experiment_index csv_of default_organizer fresh_root)
    as [[df | e] w1] eqn:E; [| vm_compute in E; discriminate].
  destruct (empty_index_commands csv_of no_re "best_accuracy" 5 "abc" fresh_root df w1 E)
    as (Hlist & Hbest & Hcd).
  - vm_compute in E. now injection E as <- _.
  - rewrite Hlist, Hbest, Hcd. vm_compute in E. injection E as _ <-.
    repeat split; reflexivity.
Defined.

Lemma list_experiments_prints_all_witness :
  list_experiments csv_of spec_world
  = (Ok tt,
     printing indexed_world
       [PrintTable (available list_columns indexed_frame)
                   (map (fun r => map (cell r) (available list_columns indexed_frame))
                        (rows indexed_frame))])
  /\ In "folder_name" (available list_columns indexed_frame).
Proof.
  apply (list_experiments_prints_all csv_of spec_world indexed_frame indexed_world).
  - reflexivity.
  - discriminate.
Defined.

Lemma find_best_rejects_text_metric_witness :
  find_best_experiments csv_of "model" 5 spec_world = (Raise TypeError, indexed_world).
Proof.
  apply (find_best_rejects_text_metric csv_of "model" 5 spec_world indexed_frame
           indexed_world expA_record "r18").
  - reflexivity.
  - left; reflexivity.
  - reflexivity.
Defined.

(** ** Retention cleanup: what stays, what is counted, what an error leaves *)

(** X14: the cleanup never deletes a file of the base directory (the index
    file among them) nor a directory that is not older than the cutoff,
    whatever results it holds and however the cleanup ends. *)
Theorem cleanup_spares_files_and_recent :
  forall self keep_days w name x,
    NoDup (map fst (files w)) ->
    lookup name (files w) = Some x ->
    match x with
    | File _ => True
    | Dir mtime _ => (cutoff_of w keep_days <= mtime)%Q
    end ->
    lookup name (files (snd (cleanup_old_experiments self keep_days w))) = Some x.
Proof.
  intros self keep_days w name x Hnd Hl Hx.
  rewrite cleanup_files, cleanup_loop_keeps; [exact Hl |].
  intros y Hy. rewrite (lookup_unique _ _ _ _ Hnd Hl Hy).
  destruct x as [f | mtime entries]; simpl; [exact I |].
  intros Hold. apply Qlt_bool_iff in Hold. exfalso.
  now apply (Qlt_not_le _ _ Hold).
Qed.

Lemma cleanup_spares_files_and_recent_witness :
  lookup "recent" (files (snd (cleanup_old_experiments default_organizer 30 mixed_runs)))
  = lookup "recent" (files mixed_runs)
  /\ lookup "notes.txt" (files (snd (cleanup_old_experiments default_organizer 30 mixed_runs)))
     = Some (File unreadable_results).
Proof.
  assert (Hnd : NoDup (map fst (files mixed_runs))).
  { simpl. repeat constructor; simpl; intuition discriminate. }
  split.
  - apply (cleanup_spares_files_and_recent default_organizer 30 mixed_runs "recent"
             (experiment 2999999 [("model", JStr "r18")] [("best_accuracy", JNum 0.5)]) Hnd).
    + reflexivity.
    + unfold Qle; simpl; lia.
  - apply (cleanup_spares_files_and_recent default_organizer 30 mixed_runs "notes.txt"
             (File unreadable_results) Hnd).
    + reflexivity.
    + exact I.
Defined.

(** X15: the cleanup only deletes: an entry of the base directory after the
    cleanup was there before it, unchanged, and the cleanup creates none. *)
Theorem cleanup_only_deletes :
  forall self keep_days w name x,
    lookup name (files (snd (cleanup_old_experiments self keep_days w))) = Some x ->
    lookup name (files w) = Some x.
Proof.
  intros self keep_days w name x. rewrite cleanup_files.
  destruct (cleanup_loop_shrinks name (cutoff_of w keep_days) (files w) 0%Z w) as [H | H];
    rewrite H; [trivial | discriminate].
Qed.

Lemma cleanup_only_deletes_witness :
  lookup "above" (files aged_runs)
  = Some (experiment 0 [("model", JStr "r18")] [("best_accuracy", JNum 0.9375)]).
Proof.
  apply (cleanup_only_deletes default_organizer 30 aged_runs). reflexivity.
Defined.

Lemma filter_all_true {A} (p : A -> bool) l :
  (forall a, In a l -> p a = true) -> filter p l = l.
Proof.
  induction l as [| x l IH]; intros H; simpl; [reflexivity |].
  rewrite (H x) by now left. f_equal. apply IH. intros a Ha. apply H. now right.
Qed.

Lemma length_remove name (d : directory) :
  NoDup (map fst d) -> In name (map fst d) ->
  S (List.length (remove name d)) = List.length d.
Proof.
  unfold remove. induction d as [| [n x] d IH]; intros Hnd Hin; [destruct Hin |].
  inversion Hnd as [| ? ? Hn Hnd']; subst. cbn [filter fst].
  destruct (String.eqb name n) eqn:E; cbn [negb].
  - apply String.eqb_eq in E. subst n. cbn [List.length]. f_equal.
    rewrite filter_all_true; [reflexivity |].
    intros [k y] Hk. cbn [fst]. apply negb_true_iff, String.eqb_neq.
    intros ->. apply Hn. now apply (in_map fst) in Hk.
  - simpl in Hin. destruct Hin as [-> | Hin]; [now rewrite String.eqb_refl in E |].
    cbn [List.length]. f_equal. now apply IH.
Qed.

Lemma names_remove name n (d : directory) :
  In n (map fst (remove name d)) <-> In n (map fst d) /\ n <> name.
Proof.
  unfold remove. rewrite !in_map_iff. split.
  - intros ([k y] & <- & Hin). apply filter_In in Hin as [Hin Hne]. cbn [fst] in *.
    split; [exists (k, y); auto |].
    apply negb_true_iff, String.eqb_neq in Hne. congruence.
  - intros [([k y] & <- & Hin) Hne]. exists (k, y). split; [reflexivity |].
    apply filter_In. split; [exact Hin |]. cbn [fst] in *.
    apply negb_true_iff, String.eqb_neq. congruence.
Qed.

Lemma NoDup_remove name (d : directory) :
  NoDup (map fst d) -> NoDup (map fst (remove name d)).
Proof.
  unfold remove. induction d as [| [n x] d IH]; intros Hnd; [constructor |].
  inversion Hnd as [| ? ? Hn Hnd']; subst. cbn [filter fst].
  destruct (negb (String.eqb name n)); [| now apply IH].
  cbn [map fst]. constructor; [| now apply IH].
  intros Hin. apply names_remove in Hin. now apply Hn.
Qed.

(** The count the loop returns is the number of entries it has deleted. *)
Lemma cleanup_loop_counts cutoff listing :
  forall removed w r w',
    NoDup (map fst listing) ->
    NoDup (map fst (files w)) ->
    incl (map fst listing) (map fst (files w)) ->
    cleanup_loop cutoff listing removed w = (Ok r, w') ->
    (Z.of_nat (List.length (files w)) + removed
     = Z.of_nat (List.length (files w')) + r)%Z.
Proof.
  induction listing as [| [name [f | mtime entries]] rest IH];
    intros removed w r w' Hl Hw Hincl Hrun.
  - injection Hrun as <- <-. reflexivity.
  - rewrite cleanup_loop_file in Hrun. inversion Hl; subst.
    apply (IH _ _ _ _ ltac:(assumption) Hw); [| exact Hrun].
    intros n Hn. apply Hincl. now right.
  - inversion Hl as [| ? ? Hname Hl']; subst.
    assert (Hrest : incl (map fst rest) (map fst (files w)))
      by (intros n Hn; apply Hincl; now right).
    revert Hrun. cleanup_round cutoff name mtime entries; intros Hrun.
    + now apply IH in Hrun.
    + apply IH in Hrun; try assumption; cbn [files] in *.
      * rewrite <- Hrun.
        rewrite <- (length_remove name (files w) Hw) by (apply Hincl; now left). lia.
      * now apply NoDup_remove.
      * intros n Hn. apply names_remove. split; [now apply Hrest |].
        intros ->. now apply Hname.
    + discriminate.
    + apply (IH _ _ _ _ Hl' Hw Hrest Hrun).
Qed.

(** X16: when the cleanup runs to its end, the number in its last line,
    [Removed k old experiments], is the number of entries the base directory
    has lost. *)
Theorem cleanup_reports_its_count :
  forall self keep_days w,
    NoDup (map fst (files w)) ->
    fst (cleanup_old_experiments self keep_days w) = Ok tt ->
    exists k before,
      stdout (snd (cleanup_old_experiments self keep_days w))
      = before ++ [Print [Lit ("Removed " ++ str_int k ++ " old experiments")]]
      /\ Z.of_nat (List.length (files w))
         = (Z.of_nat (List.length (files (snd (cleanup_old_experiments self keep_days w))))
            + k)%Z.
Proof.
  intros self keep_days w Hnd.
  unfold cleanup_old_experiments, bind, now, listdir. cbn [fst snd].
  fold (cutoff_of w keep_days).
  destruct (cleanup_loop (cutoff_of w keep_days) (files w) 0 w) as [[k | e] w'] eqn:Eloop;
    [| discriminate].
  intros _. exists k, (stdout w'). cbn [print snd stdout files]. split; [reflexivity |].
  pose proof (cleanup_loop_counts _ _ _ _ _ _ Hnd Hnd (incl_refl _) Eloop) as H. lia.
Qed.

Lemma cleanup_reports_its_count_witness :
  exists k before,
    stdout (snd (cleanup_old_experiments default_organizer 30 aged_runs))
    = before ++ [Print [Lit ("Removed " ++ str_int k ++ " old experiments")]]
    /\ Z.of_nat (List.length (files aged_runs))
       = (Z.of_nat (List.length
                      (files (snd (cleanup_old_experiments default_organizer 30 aged_runs))))
          + k)%Z.
Proof.
  apply (cleanup_reports_its_count default_organizer 30 aged_runs).
  - simpl. repeat constructor; simpl; intuition discriminate.
  - reflexivity.
Defined.

Lemma In_lookup n x (d : directory) :
  NoDup (map fst d) -> In (n, x) d -> lookup n d = Some x.
Proof.
  intros Hnd Hin. destruct (lookup n d) as [y |] eqn:E.
  - now rewrite (lookup_unique _ _ _ _ Hnd E Hin).
  - exfalso. clear Hnd. induction d as [| [k z] d IH]; [destruct Hin |].
    simpl in E. destruct (String.eqb n k) eqn:Ek; [discriminate |].
    destruct Hin as [[= -> ->] | Hin]; [now rewrite String.eqb_refl in Ek | now apply IH].
Qed.

(** The loop over a listing in two parts. *)
Lemma cleanup_loop_app cutoff l1 l2 :
  forall removed w,
    cleanup_loop cutoff (l1 ++ l2) removed w
    = match cleanup_loop cutoff l1 removed w with
      | (Ok r, w1) => cleanup_loop cutoff l2 r w1
      | (Raise e, w1) => (Raise e, w1)
      end.
Proof.
  induction l1 as [| [name [f | mtime entries]] rest IH]; intros removed w.
  - reflexivity.
  - cbn [app]. rewrite !cleanup_loop_file. apply IH.
  - cbn [app]. destruct (Qlt_bool mtime cutoff) eqn:Hage.
    + destruct (high_performing entries) as [[|] | e] eqn:Hcheck.
      * rewrite !(cleanup_loop_keep _ _ _ _ _ _ _ Hage Hcheck). apply IH.
      * rewrite !(cleanup_loop_delete _ _ _ _ _ _ _ Hage Hcheck). apply IH.
      * now rewrite !(cleanup_loop_abort _ _ _ _ _ _ _ _ Hage Hcheck).
    + rewrite !(cleanup_loop_recent _ _ _ _ _ _ _ Hage). apply IH.
Qed.

Lemma checks_answer_completes cutoff listing :
  checks_answer cutoff listing ->
  forall removed w, exists r w1, cleanup_loop cutoff listing removed w = (Ok r, w1).
Proof.
  induction 1 as [| [name [f | mtime entries]] rest He _ IH]; intros removed w.
  - now exists removed, w.
  - rewrite cleanup_loop_file. apply IH.
  - cbn [snd] in He. destruct (Qlt_bool mtime cutoff) eqn:Hage.
    + destruct (He eq_refl) as [[|] Hcheck].
      * rewrite (cleanup_loop_keep _ _ _ _ _ _ _ Hage Hcheck). apply IH.
      * rewrite (cleanup_loop_delete _ _ _ _ _ _ _ Hage Hcheck). apply IH.
    + rewrite (cleanup_loop_recent _ _ _ _ _ _ _ Hage). apply IH.
Qed.

(** X18: a results document without the key [best_accuracy] counts as an
    accuracy of 0: the aged directory is not preserved, and a cleanup that
    runs to its end has deleted it. *)
Theorem cleanup_deletes_without_metric :
  forall self keep_days w name mtime entries results,
    lookup name (files w) = Some (Dir mtime entries) ->
    open_json entries "results.json" = Ok results ->
    get "best_accuracy" results = None ->
    (mtime < cutoff_of w keep_days)%Q ->
    fst (cleanup_old_experiments self keep_days w) = Ok tt ->
    lookup name (files (snd (cleanup_old_experiments self keep_days w))) = None.
Proof.
  intros self keep_days w name mtime entries results Hdir Hres Hget Hold Hok.
  assert (Hcheck : high_performing entries = Ok false).
  { unfold high_performing.
    assert (Hex : exists_ "results.json" entries = true).
    { unfold open_json in Hres. unfold exists_.
      now destruct (lookup "results.json" entries). }
    rewrite Hex, Hres. cbn [rbind]. now rewrite Hget. }
  rewrite cleanup_files. apply (cleanup_loop_removes name mtime entries).
  - now apply cleanup_completes with (self := self).
  - now apply lookup_In.
  - now apply Qlt_bool_iff.
  - exact Hcheck.
Qed.

Lemma cleanup_deletes_without_metric_witness :
  lookup "no_metric" (files (snd (cleanup_old_experiments default_organizer 30 mixed_runs)))
  = None.
Proof.
  apply (cleanup_deletes_without_metric default_organizer 30 mixed_runs "no_metric" 0
           (experiment_files [("model", JStr "r18")] [("loss", JNum 0.125)])
           [("loss", JNum 0.125)]);
    reflexivity.
Defined.

(** ** The order of the index, and the commands that do not build it *)

Lemma collect_jobs_names parent_name parent_path jobs :
  Forall (fun j => has_info j = true -> loads (snd j)) jobs ->
  exists recs,
    collect (index_job parent_name parent_path) jobs = Ok recs
    /\ map (get "folder_name") recs
       = map (fun j => Some (JStr (fst j))) (filter has_info jobs).
Proof.
  induction 1 as [| [job entries] jobs Hj _ (recs & Hrecs & Hall)].
  - now exists [].
  - cbn [collect filter].
    assert (Hi : has_info (job, entries) = exists_ "experiment_info.json" entries)
      by reflexivity.
    rewrite Hi in *. cbn [snd] in Hj.
    destruct (exists_ "experiment_info.json" entries) eqn:Einfo.
    + destruct (extract_total job (joinpath parent_path job) entries (Hj eq_refl))
        as [info Hinfo].
      assert (Hone : index_job parent_name parent_path (job, entries)
                     = Ok [setitem "job_number" (JStr job)
                             (setitem "sweep_parent" (JStr parent_name) info)]).
      { unfold index_job. now rewrite Einfo, Hinfo. }
      rewrite Hone, Hrecs. cbn [rbind app map fst]. eexists. split; [reflexivity |].
      cbn [map]. f_equal; [| exact Hall].
      now destruct (index_job_fields _ _ _ _ _ _ Hone (or_introl eq_refl)) as [[Hn _] _].
    + assert (Hnone : index_job parent_name parent_path (job, entries) = Ok []).
      { unfold index_job. now rewrite Einfo. }
      rewrite Hnone, Hrecs. cbn [rbind app]. eauto.
Qed.

Section SweepCommands.
Variable to_csv : DataFrame -> file.
Variable re_search : string -> string -> result bool.

(** X20: the commands [sweeps] and [analyze_sweep] read the index without
    building it.  On a base directory without index file they end in an
    uncaught [FileNotFoundError], exit status 1, nothing printed; after a
    build they read the file that the build has written. *)
Theorem sweep_commands_read_built_index :
  forall prog sweep_name rest w,
    (lookup "experiment_index.csv" (files w) = None ->
     main to_csv re_search [prog; "sweeps"] w = (Raise FileNotFoundError, w)
     /\ main to_csv re_search (prog :: "analyze_sweep" :: sweep_name :: rest) w
        = (Raise FileNotFoundError, w)
     /\ exit_status (main to_csv re_search [prog; "sweeps"] w) = 1%Z)
    /\ (forall df w1,
           create_experiment_index to_csv default_organizer w = (Ok df, w1) ->
           read_index w1 = (read_csv (to_csv df), w1)).
Proof.
  intros prog sweep_name rest w. split.
  - intros Hmissing.
    assert (Hread : read_index w = (Raise FileNotFoundError, w)).
    { rewrite read_index_eq. unfold pd_read_csv. now rewrite Hmissing. }
    assert (H1 : main to_csv re_search [prog; "sweeps"] w = (Raise FileNotFoundError, w)).
    { unfold main; simpl. unfold list_sweeps, bind. now rewrite Hread. }
    split; [exact H1 |]. split.
    + unfold main; simpl. unfold analyze_sweep, bind. now rewrite Hread.
    + unfold exit_status. now rewrite H1.
  - intros df w1 Hbuild. rewrite read_index_eq. unfold pd_read_csv.
    unfold create_experiment_index, bind, listdir, lift, store, print, ret in Hbuild.
    destruct (experiments (base_dir default_organizer) (files w)) as [recs | e];
      [| discriminate].
    destruct (write _ _ (files w)) as [d | e] eqn:Ew; [| discriminate].
    injection Hbuild as <- <-. cbn [files].
    unfold write in Ew.
    destruct (lookup "experiment_index.csv" (files w)) as [[g | mtime entries] |];
      try discriminate; injection Ew as <-; now rewrite lookup_replace_same.
Qed.
End SweepCommands.

Lemma sweep_commands_read_built_index_witness :
  main csv_of no_re ["experiment_tracker.py"; "sweeps"] fresh_root
  = (Raise FileNotFoundError, fresh_root)
  /\ exit_status (main csv_of no_re ["experiment_tracker.py"; "sweeps"] fresh_root) = 1%Z
  /\ read_index indexed_world = (Ok indexed_frame, indexed_world).
Proof.
  destruct (sweep_commands_read_built_index csv_of no_re "experiment_tracker.py"
              "sweepB" [] fresh_root) as [Hfresh _].
  destruct (sweep_commands_read_built_index csv_of no_re "experiment_tracker.py"
              "sweepB" [] spec_world) as [_ Hbuilt].
  destruct (Hfresh eq_refl) as (Hs & _ & Hexit).
  split; [exact Hs |]. split; [exact Hexit |].
  apply (Hbuilt indexed_frame indexed_world). reflexivity.
Defined.

(** ** Sweep jobs, counted and ordered by what the directories hold *)

(** The job directories the builder sorts are the directories of the listing
    whose name starts with [job_]. *)
Lemma In_job_dirs entries n es :
  In (n, es) (job_dirs entries)
  <-> String.prefix "job_" n = true /\ exists mtime, In (n, Dir mtime es) entries.
Proof.
  unfold job_dirs, subdirs. rewrite filter_In, in_flat_map. cbn [fst]. split.
  - intros [([k [f | mtime js]] & Hin & Hk) Hp]; cbn [snd fst] in Hk; [destruct Hk |].
    destruct Hk as [[= -> ->] | []]. split; [exact Hp | now exists mtime].
  - intros [Hp [mtime Hin]]. split; [| exact Hp].
    exists (n, Dir mtime es). split; [exact Hin | now left].
Qed.

Lemma indexed_jobs entries :
  map fst (filter has_info (job_dirs entries)) = map fst (filter is_job entries).
Proof.
  induction entries as [| [n [f | mtime es]] entries IH].
  - reflexivity.
  - exact IH.
  - unfold job_dirs, subdirs in *. cbn [flat_map snd fst app filter].
    unfold is_job at 1. cbn [snd fst].
    destruct (String.prefix "job_" n); cbn [andb filter].
    + unfold has_info at 1. cbn [snd].
      destruct (exists_ "experiment_info.json" es); cbn [map fst]; now rewrite IH.
    + exact IH.
Qed.

Lemma jobs_load entries :
  (forall job mtime jentries,
      In (job, Dir mtime jentries) entries ->
      is_job (job, Dir mtime jentries) = true ->
      loads jentries) ->
  Forall (fun j => has_info j = true -> loads (snd j)) (sorted by_name (job_dirs entries)).
Proof.
  intros Hl. apply Forall_forall. intros [n es] Hj Hinfo.
  apply (Permutation_in _ (sorted_perm by_name (job_dirs entries))) in Hj.
  apply In_job_dirs in Hj as [Hp [mtime Hin]].
  apply (Hl n mtime es Hin). unfold is_job. cbn [snd fst]. now rewrite Hp.
Qed.


(** The names the builder visits below a sweep parent. *)
Lemma visited_jobs entries :
  Permutation (map fst (filter has_info (sorted by_name (job_dirs entries))))
              (map fst (filter is_job entries))
  /\ StronglySorted name_le
       (map fst (filter has_info (sorted by_name (job_dirs entries)))).
Proof.
  split.
  - rewrite <- indexed_jobs. apply Permutation_map, filter_perm, sorted_perm.
  - apply StronglySorted_map, StronglySorted_filter.
    apply (sorted_sorted by_name).
    + intros a b. apply string_leb_total.
    + intros a b c. apply string_leb_trans.
Qed.



Lemma index_dir_contributes base e :
  documents_load e ->
  exists bs names,
    index_dir base e = Ok bs
    /\ List.length bs = contributes e
    /\ segment e names
    /\ map (get "folder_name") bs = map (fun n => Some (JStr n)) names.
Proof.
  destruct e as [name [f | mtime entries]];
    unfold documents_load, contributes, segment; cbn [snd fst index_dir].
  - intros _. now exists [], [].
  - destruct (exists_ "experiment_info.json" entries) eqn:Einfo.
    + intros Hl. destruct (extract_total name (joinpath base name) entries Hl) as [r Hr].
      rewrite Hr. exists [r], [name]. cbn [rbind]. repeat split.
      cbn [map]. f_equal. now apply extract_fields in Hr as [[Hn _] _].
    + intros Hl.
      destruct (collect_jobs_names name (joinpath base name) _ (jobs_load _ Hl))
        as (recs & -> & Hnames).
      destruct (visited_jobs entries) as [Hperm Hsorted].
      exists recs, (map fst (filter has_info (sorted by_name (job_dirs entries)))).
      split; [reflexivity |]. split; [| split; [now split |]].
      * rewrite <- (length_map (get "folder_name")), Hnames, length_map.
        rewrite <- (length_map fst (filter is_job entries)), <- (length_map fst).
        now apply Permutation_length.
      * now rewrite Hnames, map_map.
Qed.

(** When every document loads, the loop of the builder ends with one group
    of records per entry of the listing. *)
Lemma experiments_segments base root :
  Forall documents_load root ->
  exists recs segments,
    experiments base root = Ok recs
    /\ List.length recs = list_sum (map contributes root)
    /\ Forall2 segment root segments
    /\ map (get "folder_name") recs = map (fun n => Some (JStr n)) (List.concat segments).
Proof.
  unfold experiments.
  induction 1 as [| e root He _ (recs & segments & Hrecs & Hlen & Hseg & Hnames)].
  - exists [], []. repeat split. constructor.
  - destruct (index_dir_contributes base e He) as (bs & names & Hbs & Hn & Hs & Hb).
    exists (bs ++ recs), (names :: segments). cbn [collect]. rewrite Hbs, Hrecs. cbn [rbind].
    split; [reflexivity |]. split; [| split].
    + rewrite length_app, Hn, Hlen. reflexivity.
    + now constructor.
    + cbn [List.concat]. now rewrite !map_app, Hb, Hnames.
Qed.

Section BuildResult.
Variable to_csv : DataFrame -> file.

Lemma build_succeeds self w recs :
  experiments (base_dir self) (files w) = Ok recs ->
  (forall mtime entries,
      lookup "experiment_index.csv" (files w) <> Some (Dir mtime entries)) ->
  exists w1,
    create_experiment_index to_csv self w = (Ok (pd_DataFrame recs), w1).
Proof.
  intros Hrecs Hfree.
  unfold create_experiment_index, bind, listdir, lift, store, write, print, ret.
  rewrite Hrecs.
  destruct (lookup "experiment_index.csv" (files w)) as [[g | mtime entries] |] eqn:El;
    [eexists; reflexivity | | eexists; reflexivity].
  exfalso. exact (Hfree mtime entries eq_refl).
Qed.

(** X1: when every document the builder opens loads and no directory stands
    where the index is written, the build succeeds and the table has, for
    every entry of the base directory, one row for a directory with an info
    document, one row per directory in it that is named [job_...] and holds
    an info document for a directory without one, and none for a file.  With
    regular experiment directories only, it has as many rows as the base
    directory has entries. *)
Theorem index_record_count :
  forall self w,
    Forall documents_load (files w) ->
    (forall mtime entries,
        lookup "experiment_index.csv" (files w) <> Some (Dir mtime entries)) ->
    exists df w1,
      create_experiment_index to_csv self w = (Ok df, w1)
      /\ List.length (rows df) = list_sum (map contributes (files w))
      /\ ((forall e, In e (files w) -> contributes e = 1%nat) ->
          List.length (rows df) = List.length (files w)).
Proof.
  intros self w Hall Hfree.
  destruct (experiments_segments (base_dir self) _ Hall) as (recs & _ & Hrecs & Hlen & _).
  destruct (build_succeeds self w recs Hrecs Hfree) as [w1 Hbuild].
  exists (pd_DataFrame recs), w1. cbn [pd_DataFrame rows].
  split; [exact Hbuild |]. split; [exact Hlen |].
  rewrite Hlen. clear. generalize (files w). intros root Hone.
  induction root as [| e root IH]; [reflexivity |].
  change (list_sum (map contributes (e :: root)))
    with (contributes e + list_sum (map contributes root))%nat.
  rewrite (Hone e) by now left.
  rewrite IH by (intros e' He'; apply Hone; now right). reflexivity.
Qed.

(** X19: when every document the builder opens loads and no directory stands
    where the index is written, the build succeeds and the folder names of
    the table follow the listing of the base directory, entry after entry:
    nothing for a file, the name of the directory for a directory with an
    info document, and for a directory without one the names of the
    directories in it that are named [job_...] and hold an info document, in
    lexicographic order. *)
Theorem index_follows_listing :
  forall self w,
    Forall documents_load (files w) ->
    (forall mtime entries,
        lookup "experiment_index.csv" (files w) <> Some (Dir mtime entries)) ->
    exists df w1 segments,
      create_experiment_index to_csv self w = (Ok df, w1)
      /\ Forall2 segment (files w) segments
      /\ map (get "folder_name") (rows df)
         = map (fun n => Some (JStr n)) (List.concat segments).
Proof.
  intros self w Hall Hfree.
  destruct (experiments_segments (base_dir self) _ Hall)
    as (recs & segments & Hrecs & _ & Hseg & Hnames).
  destruct (build_succeeds self w recs Hrecs Hfree) as [w1 Hbuild].
  exists (pd_DataFrame recs), w1, segments. now repeat split.
Qed.

(** X3: a document that does not load, be it of a directory of the base
    directory that holds an info document or of a directory named [job_...]
    in a directory that holds none, makes the whole build fail, and the
    failed build leaves the base directory, with the index of an earlier
    build, and the output exactly as they were. *)
Theorem failed_build_changes_nothing :
  forall self w name mtime entries e,
    In (name, Dir mtime entries) (files w) ->
    document_fails entries e
    \/ (exists_ "experiment_info.json" entries = false
        /\ exists job jm jentries,
            In (job, Dir jm jentries) entries
            /\ String.prefix "job_" job = true
            /\ document_fails jentries e) ->
    exists e', create_experiment_index to_csv self w = (Raise e', w).
Proof.
  intros self w name mtime entries e Hin Hfail.
  assert (Hdoc : forall n p es, document_fails es e -> _extract_experiment_info n p es = Raise e).
  { intros n p es [_ Hes]. unfold _extract_experiment_info.
    destruct Hes as [-> | ([info ->] & -> & ->)]; reflexivity. }
  assert (Hdir : exists e0, index_dir (base_dir self) (name, Dir mtime entries) = Raise e0).
  { cbn [index_dir]. destruct Hfail as [Hown | (Hno & job & jm & jentries & Hj & Hp & Hjob)].
    - exists e. destruct Hown as [Hinfo Hes] eqn:Eown. rewrite Hinfo.
      now rewrite (Hdoc _ _ _ Hown).
    - rewrite Hno.
      apply (collect_raises _ _ (job, jentries) e).
      + apply (Permutation_in _ (Permutation_sym (sorted_perm by_name (job_dirs entries)))).
        apply In_job_dirs. split; [exact Hp | now exists jm].
      + cbn [index_job]. destruct Hjob as [Hinfo Hes] eqn:Ejob. rewrite Hinfo.
        now rewrite (Hdoc _ _ _ Hjob). }
  destruct Hdir as [e0 Hdir].
  destruct (collect_raises _ _ _ _ Hin Hdir) as [e' He'].
  exists e'. unfold create_experiment_index, bind, listdir, lift, experiments.
  now rewrite He'.
Qed.
End BuildResult.

Lemma documents_load_example : Forall documents_load spec_example.
Proof.
  unfold spec_example. constructor; [| constructor; [| constructor]].
  - unfold documents_load. cbn.
    split; [eexists | intros _; eexists]; reflexivity.
  - unfold documents_load. cbn [snd]. cbn.
    intros job jm jentries Hin Hjob. unfold sweepB_jobs in Hin.
    destruct Hin as [[= <- <- <-] | [[= <- <- <-] | []]];
      (split; [eexists | intros _; eexists]; reflexivity).
Qed.

Lemma index_record_count_witness :
  exists df w1,
    create_experiment_index csv_of default_organizer spec_world = (Ok df, w1)
    /\ List.length (rows df) = 3%nat.
Proof.
  destruct (index_record_count csv_of default_organizer spec_world)
    as (df & w1 & Hbuild & Hlen & _).
  - exact documents_load_example.
  - intros mtime entries. discriminate.
  - exists df, w1. split; [exact Hbuild | exact Hlen].
Defined.

Lemma index_follows_listing_witness :
  exists df w1,
    create_experiment_index csv_of default_organizer spec_world = (Ok df, w1)
    /\ map (get "folder_name") (rows df)
       = [Some (JStr "expA"); Some (JStr "job_0"); Some (JStr "job_1")].
Proof.
  destruct (index_follows_listing csv_of default_organizer spec_world)
    as (df & w1 & segments & Hbuild & _ & _).
  - exact documents_load_example.
  - intros mtime entries. discriminate.
  - exists df, w1. split; [exact Hbuild |].
    vm_compute in Hbuild. injection Hbuild as <- _. reflexivity.
Defined.

Lemma failed_build_changes_nothing_witness :
  (exists e', create_experiment_index csv_of default_organizer broken_runs
              = (Raise e', broken_runs))
  /\ (exists e', create_experiment_index csv_of default_organizer broken_job
                 = (Raise e', broken_job)).
Proof.
  split.
  - apply (failed_build_changes_nothing csv_of default_organizer broken_runs "broken" 0
             [("experiment_info.json", File (document [("model", JStr "r18")]));
              ("results.json", File unreadable_results)] JSONDecodeError).
    + right; left; reflexivity.
    + left. split; [reflexivity |]. right.
      split; [eexists; reflexivity | split; reflexivity].
  - apply (failed_build_changes_nothing csv_of default_organizer broken_job "sweepD" 0
             [("job_0", experiment 0 [("model", JStr "r18")] [("best_accuracy", JNum 0.5)]);
              ("job_1", Dir 0 [("experiment_info.json",
                                File (document [("model", JStr "r18")]));
                               ("results.json", File unreadable_results)])]
             JSONDecodeError).
    + right; left; reflexivity.
    + right. split; [reflexivity |].
      exists "job_1", 0,
        [("experiment_info.json", File (document [("model", JStr "r18")]));
         ("results.json", File unreadable_results)].
      split; [right; left; reflexivity |]. split; [reflexivity |].
      split; [reflexivity |]. right.
      split; [eexists; reflexivity | split; reflexivity].
Defined.

(** ** The cleanup, as far as it gets *)

(** C3, as the code has it: the preservation check looks for [results.json]
    among the entries of the visited directory only.  A directory of the
    base directory that is older than the cutoff and has no [results.json]
    of its own fails the check whatever it contains (job subdirectories with
    any accuracy, the entries of [shortcuts]), and it is deleted with all
    its contents as soon as the cleanup reaches it: that is, when the check
    answers for every aged directory listed before it.  It stays deleted
    whatever happens afterwards. *)
Theorem cleanup_ignores_nested_results :
  forall self keep_days w before name mtime entries after,
    files w = before ++ (name, Dir mtime entries) :: after ->
    checks_answer (cutoff_of w keep_days) before ->
    lookup "results.json" entries = None ->
    (mtime < cutoff_of w keep_days)%Q ->
    high_performing entries = Ok false
    /\ lookup name (files (snd (cleanup_old_experiments self keep_days w))) = None.
Proof.
  intros self keep_days w before name mtime entries after Hfiles Hans Hnone Hold.
  pose proof (high_performing_no_results _ Hnone) as Hhp.
  split; [exact Hhp |].
  apply Qlt_bool_iff in Hold.
  rewrite cleanup_files, Hfiles, cleanup_loop_app.
  destruct (checks_answer_completes _ _ Hans 0%Z w) as (r & w1 & ->).
  rewrite (cleanup_loop_delete _ _ _ _ _ _ _ Hold Hhp).
  match goal with
  | |- lookup _ (files (snd (cleanup_loop ?c ?l ?k ?w'))) = None =>
      destruct (cleanup_loop_shrinks name c l k w') as [H | H]; [rewrite H | exact H]
  end.
  cbn [files]. rewrite lookup_remove. now rewrite String.eqb_refl.
Qed.

Lemma cleanup_ignores_nested_results_witness :
  high_performing (experiment_files [("model", JStr "r18")] [("best_accuracy", JNum 0.9375)])
  = Ok true
  /\ lookup "sweepB" (files (snd (cleanup_old_experiments default_organizer 30 aged_sweep)))
     = None
  /\ lookup "shortcuts" (files (snd (cleanup_old_experiments default_organizer 30 aged_sweep)))
     = None.
Proof.
  split; [reflexivity |]. split.
  - apply (cleanup_ignores_nested_results default_organizer 30 aged_sweep [] "sweepB" 0
             [("job_0", experiment 0 [("model", JStr "r18")]
                                     [("best_accuracy", JNum 0.9375)])]
             [("shortcuts", Dir 0 [])]);
      [reflexivity | constructor | reflexivity | reflexivity].
  - apply (cleanup_ignores_nested_results default_organizer 30 aged_sweep
             [("sweepB", Dir 0 [("job_0", experiment 0 [("model", JStr "r18")]
                                                       [("best_accuracy", JNum 0.9375)])])]
             "shortcuts" 0 [] []);
      [reflexivity | | reflexivity | reflexivity].
    constructor; [| constructor]. intros _. now exists false.
Defined.

(** C3, counterexample: an aged sweep parent without [results.json] of its
    own, whose job reports 0.9375, is listed after an aged experiment whose
    results document does not load.  The cleanup ends with the exception of
    that document and the sweep parent is still there. *)
Lemma cleanup_stopped_before_sweep :
  fst (cleanup_old_experiments default_organizer 30 blocked_sweep) = Raise JSONDecodeError
  /\ lookup "sweepB" (files (snd (cleanup_old_experiments default_organizer 30 blocked_sweep)))
     = Some (Dir 0 [("job_0", experiment 0 [("model", JStr "r18")]
                                           [("best_accuracy", JNum 0.9375)])])
  /\ lookup "sweepB" (files blocked_sweep)
     = Some (Dir 0 [("job_0", experiment 0 [("model", JStr "r18")]
                                           [("best_accuracy", JNum 0.9375)])])
  /\ lookup "results.json"
            [("job_0", experiment 0 [("model", JStr "r18")] [("best_accuracy", JNum 0.9375)])]
     = None
  /\ Qlt_bool 0 (cutoff_of blocked_sweep 30) = true.
Proof. repeat split; vm_compute; reflexivity. Qed.

(** What the loop prints are its two kinds of lines. *)
Lemma cleanup_loop_prints cutoff listing :
  forall removed w,
    exists lines,
      stdout (snd (cleanup_loop cutoff listing removed w)) = stdout w ++ lines
      /\ Forall decision_line lines.
Proof.
  induction listing as [| [name [f | mtime entries]] rest IH]; intros removed w.
  - exists []. split; [now rewrite app_nil_r | constructor].
  - rewrite cleanup_loop_file. apply IH.
  - cleanup_round cutoff name mtime entries.
    + destruct (IH removed
                   (printing w [Print [Lit ("Keeping high-performing experiment: " ++ name)]]))
        as (lines & -> & Hlines).
      exists (Print [Lit ("Keeping high-performing experiment: " ++ name)] :: lines).
      split; [cbn [printing stdout]; now rewrite <- app_assoc |].
      constructor; [| exact Hlines]. exists name. now left.
    + destruct (IH (removed + 1)%Z
                   {| files := remove name (files w);
                      stdout := stdout w ++ [Print [Lit ("Removing old experiment: " ++ name)]];
                      clock := clock w |})
        as (lines & -> & Hlines).
      exists (Print [Lit ("Removing old experiment: " ++ name)] :: lines).
      split; [cbn [stdout]; now rewrite <- app_assoc |].
      constructor; [| exact Hlines]. exists name. now right.
    + exists []. split; [now rewrite app_nil_r | constructor].
    + apply IH.
Qed.

Lemma decision_line_no_count l k :
  decision_line l -> l <> Print [Lit ("Removed " ++ str_int k ++ " old experiments")].
Proof.
  intros [name [-> | ->]] H; cbn in H; discriminate H.
Qed.

(** X17: an aged directory whose [results.json] does not load, or reports a
    string as [best_accuracy], stops the cleanup with that exception.  The
    aged low performers listed before it are already deleted and stay so;
    the directory itself and everything listed after it are untouched; what
    has been printed are the lines of the decisions taken so far, and the
    closing line with the count is not among them. *)
Theorem cleanup_stops_at_bad_results :
  forall self keep_days w before name mtime entries after e,
    files w = before ++ (name, Dir mtime entries) :: after ->
    NoDup (map fst (files w)) ->
    checks_answer (cutoff_of w keep_days) before ->
    (mtime < cutoff_of w keep_days)%Q ->
    (exists_ "results.json" entries = true
     /\ open_json entries "results.json" = Raise e)
    \/ (e = TypeError
        /\ exists results s,
            open_json entries "results.json" = Ok results
            /\ get "best_accuracy" results = Some (JStr s)) ->
    exists w1 lines,
      cleanup_old_experiments self keep_days w = (Raise e, w1)
      /\ stdout w1 = stdout w ++ lines
      /\ Forall decision_line lines
      /\ (forall k, ~ In (Print [Lit ("Removed " ++ str_int k ++ " old experiments")]) lines)
      /\ (forall n x, In (n, x) ((name, Dir mtime entries) :: after) ->
                      lookup n (files w1) = Some x)
      /\ (forall n m es, In (n, Dir m es) before ->
                         (m < cutoff_of w keep_days)%Q ->
                         high_performing es = Ok false ->
                         lookup n (files w1) = None).
Proof.
  intros self keep_days w before name mtime entries after e Hfiles Hnd Hans Hold Hbad.
  assert (Hcheck : high_performing entries = Raise e).
  { unfold high_performing. destruct Hbad as [[-> ->] | (-> & results & s & Hres & Hget)].
    - reflexivity.
    - assert (Hex : exists_ "results.json" entries = true).
      { unfold open_json in Hres. unfold exists_.
        now destruct (lookup "results.json" entries). }
      rewrite Hex, Hres. cbn [rbind]. now rewrite Hget. }
  apply Qlt_bool_iff in Hold.
  destruct (checks_answer_completes _ _ Hans 0%Z w) as (r & w1 & Hrun).
  destruct (cleanup_loop_prints (cutoff_of w keep_days) before 0%Z w) as (lines & Hout & Hlines).
  rewrite Hrun in Hout. cbn [snd] in Hout.
  exists w1, lines. split; [| split; [exact Hout | split; [exact Hlines | split; [| split]]]].
  - unfold cleanup_old_experiments, bind, now, listdir. cbn [fst snd].
    fold (cutoff_of w keep_days). rewrite Hfiles at 1.
    rewrite cleanup_loop_app, Hrun.
    now rewrite (cleanup_loop_abort _ _ _ _ _ _ _ _ Hold Hcheck).
  - intros k Hin. rewrite Forall_forall in Hlines.
    exact (decision_line_no_count _ k (Hlines _ Hin) eq_refl).
  - intros n x Hin.
    replace w1 with (snd (cleanup_loop (cutoff_of w keep_days) before 0 w))
      by now rewrite Hrun.
    rewrite cleanup_loop_keeps.
    + apply In_lookup; [exact Hnd |]. rewrite Hfiles. apply in_or_app. now right.
    + intros y Hy. exfalso. rewrite Hfiles, map_app in Hnd.
      apply (in_map fst) in Hy. apply (in_map fst) in Hin. cbn [fst] in Hy, Hin.
      revert Hnd Hy Hin. generalize (map fst before).
      generalize (map fst ((name, Dir mtime entries) :: after)).
      clear. intros l2 l1 Hnd H1 H2.
      induction l1 as [| a l1 IH]; [destruct H1 |].
      cbn [app] in Hnd. inversion Hnd as [| ? ? Ha Hnd']; subst.
      destruct H1 as [-> | H1]; [| now apply IH].
      apply Ha, in_or_app. now right.
  - intros n m es Hin Hm Hlow.
    replace w1 with (snd (cleanup_loop (cutoff_of w keep_days) before 0 w))
      by now rewrite Hrun.
    apply (cleanup_loop_removes n m es); try assumption.
    + exists r. now rewrite Hrun.
    + now apply Qlt_bool_iff.
Qed.

Lemma cleanup_stops_at_bad_results_witness :
  exists w1,
    cleanup_old_experiments default_organizer 30 broken_runs = (Raise JSONDecodeError, w1)
    /\ stdout w1 = [Print [Lit "Removing old experiment: old_low"]]
    /\ lookup "later_low" (files w1) = lookup "later_low" (files broken_runs)
    /\ lookup "old_low" (files w1) = None.
Proof.
  destruct (cleanup_stops_at_bad_results default_organizer 30 broken_runs
              [("old_low", experiment 0 [("model", JStr "r18")] [("best_accuracy", JNum 0.5)])]
              "broken" 0
              [("experiment_info.json", File (document [("model", JStr "r18")]));
               ("results.json", File unreadable_results)]
              [("later_low", experiment 0 [("model", JStr "r18")]
                                          [("best_accuracy", JNum 0.25)])]
              JSONDecodeError)
    as (w1 & lines & Hrun & Hout & _ & _ & Hlater & Hearlier).
  - reflexivity.
  - simpl. repeat constructor; simpl; intuition discriminate.
  - constructor; [| constructor]. intros _. now exists false.
  - reflexivity.
  - left. split; reflexivity.
  - exists w1. split; [exact Hrun |]. split; [| split].
    + vm_compute in Hrun. injection Hrun as <-. reflexivity.
    + apply Hlater. right; left; reflexivity.
    + apply (Hearlier "old_low" 0
               (experiment_files [("model", JStr "r18")] [("best_accuracy", JNum 0.5)]));
        [left; reflexivity | reflexivity | reflexivity].
Defined.

(** ** The ranking that [find_best_experiments] prints *)

Section RankingOutput.
Variable to_csv : DataFrame -> file.
Variable re_search : string -> string -> result bool.

(** The first [n] rows of the descending ranking and the rows left out. *)
Lemma ranking_split metric n (rs : list dict) :
  let top := firstn n (descending metric rs) in
  let rest := skipn n (descending metric rs) in
  Permutation (top ++ rest) rs
  /\ List.length top = Nat.min n (List.length rs)
  /\ StronglySorted (ranks_above metric) top
  /\ (forall r r', In r top -> In r' rest -> ranks_above metric r r')
  /\ (forall q, filter (tied metric q) (top ++ rest) = filter (tied metric q) rs)
  /\ ((List.length rs <= n)%nat -> rest = [] /\ Permutation top rs).
Proof.
  intros top rest.
  assert (Hsorted : StronglySorted (ranks_above metric) (top ++ rest)).
  { unfold top, rest. rewrite firstn_skipn. apply descending_sorted. }
  split; [| split; [| split; [| split; [| split]]]].
  - unfold top, rest. rewrite firstn_skipn. apply descending_perm.
  - unfold top. rewrite length_firstn. f_equal.
    apply Permutation_length, descending_perm.
  - clear - Hsorted.
    induction top as [| x l IH]; [constructor |].
    cbn [app] in Hsorted. inversion Hsorted as [| ? ? Hs Hx]; subst.
    constructor; [now apply IH |].
    apply Forall_app in Hx. tauto.
  - now apply StronglySorted_app_cross.
  - intros q. unfold top, rest. rewrite firstn_skipn. apply descending_stable.
  - intros Hall.
    assert (Hlen : (List.length (descending metric rs) <= n)%nat)
      by now rewrite (Permutation_length (descending_perm metric rs)).
    split.
    + now apply skipn_all2.
    + unfold top. rewrite firstn_all2 by exact Hlen. apply descending_perm.
Qed.

(** What [find_best_experiments] prints once the index is built. *)
Lemma find_best_output metric top_n w df w1 :
  create_experiment_index to_csv default_organizer w = (Ok df, w1) ->
  (has_column df metric = false ->
   find_best_experiments to_csv metric top_n w
   = (Ok tt, printing w1 [Print [Lit ("Metric '" ++ metric ++ "' not found")]]))
  /\ (has_column df metric = true ->
      numeric_column df metric = true ->
      has_column df "model" = true ->
      has_column df "dataset" = true ->
      find_best_experiments to_csv metric top_n w
      = (Ok tt,
         printing w1
           [Print [Lit (nl ++ "Top " ++ str_int top_n ++ " experiments by "
                           ++ metric ++ ":")];
            PrintTable ["folder_name"; "model"; "dataset"; metric]
                       (shown_cells metric
                          (firstn (Z.to_nat top_n) (descending metric (rows df))))])).
Proof.
  intros Hbuild. split.
  - intros Hc. unfold find_best_experiments, bind. rewrite Hbuild, Hc. reflexivity.
  - intros Hc Hnum Hmodel Hdata.
    destruct (built_columns _ _ _ _ _ _ Hbuild Hc) as [Hfolder _].
    unfold find_best_experiments, bind. rewrite Hbuild, Hc.
    unfold lift. rewrite (nlargest_rows _ _ _ Hc Hnum).
    unfold select, has_column in *; simpl.
    rewrite Hfolder, Hmodel, Hdata, Hc; simpl.
    unfold print_table, print; simpl. unfold printing; simpl.
    now rewrite <- app_assoc.
Qed.


(** C6, as the code has it: the command [find_best] calls
    [find_best_experiments] without arguments.  Whatever follows it on the
    command line, the index is rebuilt from the base directory and stored,
    and the ranking by [best_accuracy] is printed with at most 5 rows: the
    message that the metric was not found when the index has no such column,
    and, when the index has the columns [model] and [dataset] and the column
    [best_accuracy] is numeric with numbers of magnitude at most 2^53, the
    first 5 rows of the index in descending order of [best_accuracy]. *)
Theorem find_best_command_uses_defaults :
  forall prog rest w df w1,
    create_experiment_index to_csv default_organizer w = (Ok df, w1) ->
    let top := firstn 5 (descending "best_accuracy" (rows df)) in
    let others := skipn 5 (descending "best_accuracy" (rows df)) in
    experiments "outputs" (files w) = Ok (rows df)
    /\ lookup "experiment_index.csv" (files w1) = Some (File (to_csv df))
    /\ (has_column df "best_accuracy" = false ->
        main to_csv re_search (prog :: "find_best" :: rest) w
        = (Ok tt, printing w1 [Print [Lit "Metric 'best_accuracy' not found"]]))
    /\ (has_column df "best_accuracy" = true ->
        numeric_column df "best_accuracy" = true ->
        exact_column df "best_accuracy" = true ->
        has_column df "model" = true ->
        has_column df "dataset" = true ->
        main to_csv re_search (prog :: "find_best" :: rest) w
        = (Ok tt,
           printing w1
             [Print [Lit (nl ++ "Top 5 experiments by best_accuracy:")];
              PrintTable ["folder_name"; "model"; "dataset"; "best_accuracy"]
                         (shown_cells "best_accuracy" top)])
        /\ Permutation (top ++ others) (rows df)
        /\ List.length top = Nat.min 5 (List.length (rows df))
        /\ StronglySorted (ranks_above "best_accuracy") top
        /\ (forall r r', In r top -> In r' others -> ranks_above "best_accuracy" r r')).
Proof.
  intros prog rest w df w1 Hbuild top others.
  destruct (find_best_output "best_accuracy" 5 w df w1 Hbuild) as [Habsent Hshown].
  destruct (ranking_split "best_accuracy" 5 (rows df))
    as (Hperm & Hlen & Hsorted & Hcross & _).
  split; [| split; [| split]].
  - destruct (create_experiment_index_inv _ _ _ _ _ Hbuild) as (recs & Hrecs & ->).
    exact Hrecs.
  - revert Hbuild.
    unfold create_experiment_index, bind, listdir, lift, store, write, print, ret.
    destruct (experiments (base_dir default_organizer) (files w)) as [recs | e];
      [| discriminate].
    destruct (lookup "experiment_index.csv" (files w)) as [[g | mtime entries] |];
      try discriminate; intros [= <- <-]; cbn [files]; apply lookup_replace_same.
  - exact Habsent.
  - intros Hc Hnum _ Hmodel Hdata.
    split; [exact (Hshown Hc Hnum Hmodel Hdata) |].
    split; [exact Hperm |]. split; [exact Hlen |]. split; [exact Hsorted | exact Hcross].
Qed.
End RankingOutput.



Lemma find_best_command_uses_defaults_witness :
  stdout (snd (main csv_of no_re ["experiment_tracker.py"; "find_best"; "lr"; "1"] two_runs))
  = [Print [Lit "Created experiment index with 2 experiments"];
     Print [Lit (nl ++ "Top 5 experiments by best_accuracy:")];
     PrintTable ["folder_name"; "model"; "dataset"; "best_accuracy"]
       [[JStr "run_a"; JStr "r18"; JStr "c10"; JNum 0.75];
        [JStr "run_b"; JStr "r50"; JStr "c10"; JNum 0.5]]]
  /\ exists df,
      lookup "experiment_index.csv"
             (files (snd (main csv_of no_re
                            ["experiment_tracker.py"; "find_best"; "lr"; "1"] two_runs)))
      = Some (File (csv_of df))
      /\ List.length (rows df) = 2%nat.
Proof.
  destruct (create_experiment_index csv_of default_organizer two_runs)
    as [[df | e] w1] eqn:E; [| vm_compute in E; discriminate].
  destruct (find_best_command_uses_defaults csv_of no_re "experiment_tracker.py" ["lr"; "1"]
              two_runs df w1 E) as (_ & Hfile & _ & Hrank).
  vm_compute in E. injection E as <- <-.
  destruct Hrank as [Hrun _];
    [reflexivity | reflexivity | reflexivity | reflexivity | reflexivity |].
  rewrite Hrun. split; [reflexivity |].
  eexists. split; [exact Hfile | reflexivity].
Defined.

(** ** Queries on values the comparisons are exact on *)

(** X6: on an index that reads as the table [df], with scalars as filter
    values and in the filtered columns, numbers of magnitude at most 2^53,
    [find_experiments] returns the rows of [df], in their order, that equal
    the expected value on every filter key that is a column; a filter key
    that is no column is ignored; the result has the display columns that
    [df] has; nothing is printed or changed. *)
Theorem find_experiments_filters :
  forall self filters w df,
    pd_read_csv (files w) "experiment_index.csv" = Ok df ->
    forallb (fun kv => plain_value (snd kv)) filters = true ->
    forallb (fun r => forallb (fun kv => plain_value (cell r (fst kv))) filters) (rows df)
    = true ->
    find_experiments self filters w
    = (Ok {| columns := available (find_columns df) df;
             rows := filter (passes df filters) (rows df) |}, w).
Proof.
  intros self filters w df Hread _ _.
  unfold find_experiments, bind. rewrite read_index_eq, Hread.
  pose proof (apply_filters filters df) as H. cbv zeta in H.
  set (df' := fold_left _ filters df) in *. destruct H as [Hc Hr].
  change (["folder_name"; "model"; "dataset"; "lr"; "best_accuracy"]
          ++ (if has_column df' "sweep_parent" then ["sweep_parent"; "job_number"] else []))
    with (find_columns df').
  assert (Ha : available (find_columns df') df' = available (find_columns df) df).
  { unfold find_columns, available, has_column. now rewrite Hc. }
  unfold lift. now rewrite select_available, Hr, Ha.
Qed.

Lemma find_experiments_filters_witness :
  fst (find_experiments default_organizer
         [("model", JStr "r18"); ("optimizer", JStr "adam"); ("lr", JNum 0.25)]
         indexed_world)
  = Ok {| columns := ["folder_name"; "model"; "dataset"; "lr"; "best_accuracy";
                      "sweep_parent"; "job_number"];
          rows := filter (passes indexed_frame
                            [("model", JStr "r18"); ("optimizer", JStr "adam");
                             ("lr", JNum 0.25)])
                         (rows indexed_frame) |}
  /\ map (get "folder_name")
         (filter (passes indexed_frame
                    [("model", JStr "r18"); ("optimizer", JStr "adam"); ("lr", JNum 0.25)])
                 (rows indexed_frame))
     = [Some (JStr "expA"); Some (JStr "job_0")].
Proof.
  split; [| reflexivity].
  rewrite (find_experiments_filters default_organizer _ indexed_world indexed_frame);
    reflexivity.
Defined.



(** The folder-name search on two experiments whose documents give neither
    [model] nor [dataset]: both names contain the query, and after the
    heading the selection of the columns raises [KeyError]. *)
Lemma folder_search_without_model :
  fst (quick_cd csv_of no_re "abc" bare_runs) = Raise (KeyError "model")
  /\ stdout (snd (quick_cd csv_of no_re "abc" bare_runs))
     = [Print [Lit "Created experiment index with 2 experiments"];
        Print [Lit "Multiple matches found:"]].
Proof. split; vm_compute; reflexivity. Qed.
